(** * A shallow embedding of the SMS list assistant

    Sources: [main.py] (webhook, classifier, entry parser, dispatcher),
    [agents/grocery.py], [agents/movie.py], [agents/tv.py],
    [agents/restaurant.py] (handlers and the RAG recommendation flow).

    Strings are Stdlib [string]s over ASCII; the Python string methods the
    code uses ([lower], [strip], [split], [in]) are written out below.
    The Supabase client, the OpenAI client and [time.sleep] are modelled by
    an explicit world threaded through a small state/exception monad; each
    external call is recorded in a log so that claims about which calls
    happen can be stated. *)

From Stdlib Require Import String Ascii List Bool Arith Lia ZArith.
Import ListNotations.
Open Scope string_scope.

(* ------------------------------------------------------------------ *)
(** ** Python string primitives *)

Module Py.

(** [str.lower] on ASCII: only 'A'..'Z' change. *)
Definition lower_char (c : ascii) : ascii :=
  let n := nat_of_ascii c in
  if ((65 <=? n) && (n <=? 90))%nat then ascii_of_nat (n + 32)%nat else c.

Fixpoint lower (s : string) : string :=
  match s with
  | EmptyString => EmptyString
  | String c s' => String (lower_char c) (lower s')
  end.

(** The ASCII characters for which [str.isspace] holds: \t \n \v \f \r,
    the separators \x1c..\x1f, and the space. *)
Definition is_space (c : ascii) : bool :=
  let n := nat_of_ascii c in
  (((9 <=? n) && (n <=? 13)) || ((28 <=? n) && (n <=? 32)))%nat.

Fixpoint lstrip (s : string) : string :=
  match s with
  | EmptyString => EmptyString
  | String c s' => if is_space c then lstrip s' else s
  end.

(** Trailing spaces: a space is dropped when nothing but spaces follow it. *)
Fixpoint rstrip (s : string) : string :=
  match s with
  | EmptyString => EmptyString
  | String c s' =>
      let r := rstrip s' in
      match r with
      | EmptyString => if is_space c then EmptyString else String c EmptyString
      | _ => String c r
      end
  end.

(** [str.strip()] with no argument. *)
Definition strip (s : string) : string := rstrip (lstrip s).

(** [pat in s]. *)
Fixpoint contains (pat s : string) : bool :=
  prefix pat s ||
  match s with
  | EmptyString => false
  | String _ s' => contains pat s'
  end.

(** [s.split(sep, 1)] for a one-character separator, as a pair when the
    separator occurs (the list has two elements) and [None] otherwise. *)
Fixpoint split_char_once (sep : ascii) (s : string) : option (string * string) :=
  match s with
  | EmptyString => None
  | String c s' =>
      if Ascii.eqb c sep then Some (EmptyString, s')
      else match split_char_once sep s' with
           | Some (l, r) => Some (String c l, r)
           | None => None
           end
  end.

(** [s.split(sep)] for a one-character separator: the pieces between
    separators, always at least one. *)
Fixpoint split_char (sep : ascii) (s : string) : list string :=
  match s with
  | EmptyString => [EmptyString]
  | String c s' =>
      if Ascii.eqb c sep then EmptyString :: split_char sep s'
      else match split_char sep s' with
           | l :: ls => String c l :: ls
           | [] => [String c EmptyString]
           end
  end.

(** [s.split(sep, 1)[1]]: the text after the first occurrence of a
    non-empty [sep]; [None] where Python would raise [IndexError]. *)
Fixpoint after_first (sep s : string) : option string :=
  if prefix sep s then Some (substring (String.length sep)
                                       (String.length s - String.length sep)%nat s)
  else match s with
       | EmptyString => None
       | String _ s' => after_first sep s'
       end.

(** Truthiness of a string. *)
Definition truthy (s : string) : bool :=
  match s with EmptyString => false | _ => true end.

End Py.

Definition newline : ascii := ascii_of_nat 10.
Definition comma : ascii := ","%char.

(* ------------------------------------------------------------------ *)
(** ** main.py: classifier and entry parser *)

(** [is_data_entry_format] (main.py, lines 92-104). *)
Definition is_data_entry_format (body_text : string) : bool :=
  let lines := Py.split_char newline (Py.strip body_text) in
  (2 <=? length lines)%nat.

(** The parsed fields [(category, subcategory, name)]. *)
Record entry := mk_entry {
  e_category : string;
  e_subcategory : option string;
  e_name : string }.

(** Lines 112-129 of [store_data_entry]: [None] stands for the
    "Error: Missing category or name." reply; [lines[1]] on a list of
    fewer than two lines is an [IndexError], the [inl] case. *)
Definition parse_entry (body_text : string) : string + option entry :=
  let lines := Py.split_char newline (Py.strip body_text) in
  match lines with
  | l1 :: l2 :: _ =>
      let line1 := Py.strip l1 in
      let line2 := Py.strip l2 in
      let '(category, subcategory) :=
        match Py.split_char_once comma line1 with
        | Some (p0, p1) =>
            let subcategory_raw := Py.lower (Py.strip p1) in
            (Py.lower (Py.strip p0),
             if Py.truthy subcategory_raw then Some subcategory_raw else None)
        | None => (Py.lower line1, None)
        end in
      let name := Py.lower (Py.strip line2) in
      if negb (Py.truthy category) || negb (Py.truthy name) then inr None
      else inr (Some (mk_entry category subcategory name))
  | _ => inl "list index out of range"
  end.

(* ------------------------------------------------------------------ *)
(** ** The external collaborators *)

(** A row of the [items] table. The [embedding] column is only read by the
    [match_restaurants] RPC, whose answer is part of the world below. *)
Record item := mk_item {
  i_id : nat;
  i_user_id : string;
  i_category : string;
  i_subcategory : option string;
  i_name : string;
  i_notes : option string;
  i_timestamp : string }.

(** Embedding components are floats; only the vector's length is ever
    inspected by the code, so they are kept abstract as integers. *)
Inductive emb_resp := EmbVec (v : list Z) | EmbFail (msg : string).
Inductive rpc_resp := RpcRows (rows : list item) | RpcFail (msg : string).
Inductive llm_resp := LlmText (content : string) | LlmFail (msg : string).

(** The external calls, in the order they are issued. *)
Inductive event :=
| ESelect | EDelete | EInsert | ERpc (match_count : nat)
| EEmbed (input : string) | ESleep (secs : nat)
| ELlm (prompt : string) (max_tokens : nat).

Record world := mk_world {
  w_items : list item;
  w_next_id : nat;
  w_db_error : option string;     (* every table call raises this *)
  w_insert_data : bool;           (* whether insert returns its rows *)
  w_emb : list emb_resp;          (* successive embeddings.create answers *)
  w_rpc : rpc_resp;
  w_llm : llm_resp;
  w_now : string;                 (* utcnow().isoformat() *)
  w_log : list event }.

Definition set_items (w : world) (its : list item) (nid : nat) : world :=
  mk_world its nid (w_db_error w) (w_insert_data w) (w_emb w) (w_rpc w)
           (w_llm w) (w_now w) (w_log w).

Definition set_emb (w : world) (es : list emb_resp) : world :=
  mk_world (w_items w) (w_next_id w) (w_db_error w) (w_insert_data w) es
           (w_rpc w) (w_llm w) (w_now w) (w_log w).

Definition add_event (w : world) (ev : event) : world :=
  mk_world (w_items w) (w_next_id w) (w_db_error w) (w_insert_data w)
           (w_emb w) (w_rpc w) (w_llm w) (w_now w) (w_log w ++ [ev]).

(** A Python computation: a result or a raised exception (its [str]). *)
Inductive outcome (A : Type) := Ok (a : A) | Exn (e : string).
Arguments Ok {A} a.
Arguments Exn {A} e.

Definition M (A : Type) := world -> outcome A * world.

Definition ret {A} (a : A) : M A := fun w => (Ok a, w).
Definition raise {A} (e : string) : M A := fun w => (Exn e, w).
Definition bind {A B} (m : M A) (f : A -> M B) : M B :=
  fun w => match m w with
           | (Ok a, w') => f a w'
           | (Exn e, w') => (Exn e, w')
           end.
(** [try: m except Exception as e: h(str(e))]. *)
Definition try_except {A} (m : M A) (h : string -> M A) : M A :=
  fun w => match m w with
           | (Exn e, w') => h e w'
           | r => r
           end.
Definition get_world : M world := fun w => (Ok w, w).
Definition emit (ev : event) : M unit := fun w => (Ok tt, add_event w ev).

Notation "x <- m ;; k" := (bind m (fun x => k))
  (at level 61, m at next level, right associativity).
Notation "m ;;; k" := (bind m (fun _ => k))
  (at level 61, right associativity).

(** *** Supabase table filters *)

Inductive column := CCategory | CName | CNotes.

(** [.eq(col, v)] and [.ilike(col, pattern)]. *)
Inductive cond := Eq (c : column) (v : string) | ILike (c : column) (pat : string).

Definition col_value (it : item) (c : column) : option string :=
  match c with
  | CCategory => Some (i_category it)
  | CName => Some (i_name it)
  | CNotes => i_notes it
  end.

(** SQL [LIKE]: [%] (and PostgREST's alias [*]) matches any sequence,
    [_] one character, a backslash escapes the next character. *)
Fixpoint like_match (p s : string) {struct p} : bool :=
  match p with
  | EmptyString => match s with EmptyString => true | _ => false end
  | String c p' =>
      if Ascii.eqb c "%" || Ascii.eqb c "*" then
        (fix star (s : string) : bool :=
           like_match p' s ||
           match s with EmptyString => false | String _ s' => star s' end) s
      else if Ascii.eqb c "_" then
        match s with EmptyString => false | String _ s' => like_match p' s' end
      else if Ascii.eqb c "\" then
        match p', s with
        | String e p'', String d s' => Ascii.eqb e d && like_match p'' s'
        | _, _ => false
        end
      else match s with
           | String d s' => Ascii.eqb c d && like_match p' s'
           | EmptyString => false
           end
  end.

(** A pattern ending in a lone escape character is rejected by the
    database ("LIKE pattern must not end with escape character"). *)
Fixpoint like_valid (p : string) : bool :=
  match p with
  | EmptyString => true
  | String c p' =>
      if Ascii.eqb c "\" then
        match p' with EmptyString => false | String _ p'' => like_valid p'' end
      else like_valid p'
  end.

Definition cond_holds (it : item) (k : cond) : bool :=
  match k with
  | Eq c v => match col_value it c with
              | Some x => String.eqb x v
              | None => false       (* NULL = v is not true *)
              end
  | ILike c pat => match col_value it c with
                   | Some x => like_match (Py.lower pat) (Py.lower x)
                   | None => false
                   end
  end.

Definition cond_valid (k : cond) : bool :=
  match k with Eq _ _ => true | ILike _ pat => like_valid pat end.

Definition matches (q : list cond) (it : item) : bool :=
  forallb (cond_holds it) q.

(** Every table call is logged first, then fails if the database is down. *)
Definition db_guard (ev : event) : M unit :=
  emit ev;;;
  w <- get_world;;
  match w_db_error w with
  | Some e => raise e
  | None => ret tt
  end.

(** [table("items").select("*").<q>.execute().data] *)
Definition db_select (q : list cond) : M (list item) :=
  db_guard ESelect;;;
  if forallb cond_valid q then
    fun w => (Ok (filter (matches q) (w_items w)), w)
  else raise "invalid LIKE pattern".

(** [table("items").delete().<q>.execute()] *)
Definition db_delete (q : list cond) : M unit :=
  db_guard EDelete;;;
  if forallb cond_valid q then
    fun w => (Ok tt, set_items w (filter (fun it => negb (matches q it)) (w_items w))
                               (w_next_id w))
  else raise "invalid LIKE pattern".

(** [table("items").insert(data).execute().data]: the store assigns the id. *)
Definition db_insert (mk : nat -> item) : M (list item) :=
  db_guard EInsert;;;
  fun w =>
    if w_insert_data w then
      let it := mk (w_next_id w) in
      (Ok [it], set_items w (w_items w ++ [it]) (S (w_next_id w)))
    else (Ok [], w).

(** [supabase.rpc("match_restaurants", ...).execute().data] *)
Definition db_rpc (match_count : nat) : M (list item) :=
  emit (ERpc match_count);;;
  fun w => match w_rpc w with
           | RpcRows rows => (Ok rows, w)
           | RpcFail e => (Exn e, w)
           end.

(** [client.embeddings.create(input=text, ...).data[0].embedding] *)
Definition embeddings_create (text : string) : M (list Z) :=
  emit (EEmbed text);;;
  fun w => match w_emb w with
           | EmbVec v :: rest => (Ok v, set_emb w rest)
           | EmbFail e :: rest => (Exn e, set_emb w rest)
           | [] => (Exn "APIConnectionError", w)
           end.

(** [client.chat.completions.create(...).choices[0].message.content] *)
Definition chat_create (prompt : string) (max_tokens : nat) : M string :=
  emit (ELlm prompt max_tokens);;;
  fun w => match w_llm w with
           | LlmText t => (Ok t, w)
           | LlmFail e => (Exn e, w)
           end.

Definition sleep (secs : nat) : M unit := emit (ESleep secs).

(* ------------------------------------------------------------------ *)
(** ** Formatting helpers *)

Definition nl : string := String newline EmptyString.

(** ["\n".join(xs)] *)
Fixpoint join_nl (xs : list string) : string :=
  match xs with
  | [] => EmptyString
  | [x] => x
  | x :: xs' => x ++ nl ++ join_nl xs'
  end.

Fixpoint digits_aux (fuel n : nat) (acc : string) : string :=
  match fuel with
  | 0 => acc
  | S f =>
      let acc' := String (ascii_of_nat (48 + n mod 10)%nat) acc in
      if (n <? 10)%nat then acc' else digits_aux f (n / 10)%nat acc'
  end.

(** [str(n)] for a natural number. *)
Definition str_nat (n : nat) : string := digits_aux (S n) n EmptyString.

(** [for i, item in enumerate(items, start=i0): lines.append(fmt(i, item))] *)
Fixpoint enum_lines (i : nat) (fmt : nat -> item -> string) (its : list item)
  : list string :=
  match its with
  | [] => []
  | it :: its' => fmt i it :: enum_lines (S i) fmt its'
  end.

Definition take (n : nat) (s : string) : string := substring 0 n s.
Definition drop (n : nat) (s : string) : string :=
  substring n (String.length s - n) s.

(* ------------------------------------------------------------------ *)
(** ** agents/grocery.py *)

Definition grocery_help : string :=
  "Not sure what you want to do with groceries." ++ nl ++
  "You can say:" ++ nl ++
  "  'list groceries' (to list everything for all users)," ++ nl ++
  "  'remove grocery' (to remove all grocery items)," ++ nl ++
  "  or 'remove grocery [item]' (to remove a single item).".

Definition handle_grocery_request (body_text user_id : string) : M string :=
  let lower_text := Py.lower body_text in
  if Py.contains "list" lower_text then
    items <- db_select [Eq CCategory "Grocery"];;
    match items with
    | [] => ret "No grocery items found for anyone."
    | _ =>
        ret (join_nl ("All grocery items (all users):" ::
               enum_lines 1 (fun i it => str_nat i ++ ". " ++ i_name it ++
                                         " (User: " ++ i_user_id it ++ ")")
                          items))
    end
  else if Py.contains "remove grocery" lower_text then
    match Py.after_first "remove grocery" lower_text with
    | None => raise "list index out of range"
    | Some after =>
        let remainder := Py.strip after in
        if negb (Py.truthy remainder) then
          db_delete [Eq CCategory "Grocery"];;;
          ret "All grocery items removed for all users!"
        else
          let item_name_to_remove := remainder in
          db_delete [Eq CCategory "Grocery"; Eq CName item_name_to_remove];;;
          ret ("Removed grocery item: " ++ item_name_to_remove)
    end
  else ret grocery_help.

(* ------------------------------------------------------------------ *)
(** ** agents/movie.py *)

(** *** [re.search(r"recommend me a?n?\s+(.*?)\s+movie", lower_text)]

    The backtracking matcher of [re] tries the start positions from the
    left; at a position the literal ["recommend me "] (with its space) must
    come first, then the alternatives are tried in this order: [a?] and
    [n?] greedy (present first), [\s+] greedy (longest first), the lazy
    group [(.*?)] (shortest first, no newline), then [\s+movie]. The first
    alternative that succeeds gives group 1. *)

Fixpoint ws_count (s : string) : nat :=
  match s with
  | String c s' => if Py.is_space c then S (ws_count s') else 0
  | EmptyString => 0
  end.

Fixpoint nonnl_count (s : string) : nat :=
  match s with
  | String c s' => if Ascii.eqb c newline then 0 else S (nonnl_count s')
  | EmptyString => 0
  end.

Fixpoint first_some {A B} (f : A -> option B) (xs : list A) : option B :=
  match xs with
  | [] => None
  | x :: xs' => match f x with Some b => Some b | None => first_some f xs' end
  end.

(** [c?], greedy: the remainders after it, in the order they are tried. *)
Definition opt_char (c : ascii) (s : string) : list string :=
  match s with
  | String d s' => if Ascii.eqb c d then [s'; s] else [s]
  | EmptyString => [s]
  end.

(** [\s+movie]: as ['m'] is not a space, only the longest run can work. *)
Definition tail_ok (s : string) : bool :=
  let k := ws_count s in (1 <=? k)%nat && prefix "movie" (drop k s).

Definition movie_re_at (s : string) : option string :=
  if prefix "recommend me " s then
    let r0 := drop 13 s in
    first_some (fun r1 =>
      first_some (fun r2 =>
        first_some (fun k =>
          let r3 := drop k r2 in
          first_some (fun j => if tail_ok (drop j r3) then Some (take j r3) else None)
                     (seq 0 (S (nonnl_count r3))))
          (rev (seq 1 (ws_count r2))))
        (opt_char "n" r1))
      (opt_char "a" r0)
  else None.

(** Group 1 of the leftmost match, if any. *)
Fixpoint movie_re_search (s : string) : option string :=
  match movie_re_at s with
  | Some g => Some g
  | None => match s with
            | EmptyString => None
            | String _ s' => movie_re_search s'
            end
  end.

Definition movie_help : string :=
  "Not sure what you want to do with movies." ++ nl ++
  "Try:" ++ nl ++
  "  'list movies' (to list everything)," ++ nl ++
  "  'remove movie' (remove all)," ++ nl ++
  "  'remove movie [title]' (remove one)," ++ nl ++
  "  'recommend me an action movie' (recommendation).".

Definition numbered_names (its : list item) : list string :=
  enum_lines 1 (fun i it => str_nat i ++ ". " ++ i_name it) its.

Definition handle_movie_request (body_text user_id : string) : M string :=
  let lower_text := Py.lower body_text in
  if Py.contains "list movies" lower_text then
    items <- db_select [Eq CCategory "movie"];;
    match items with
    | [] => ret "No movies found."
    | _ => ret (join_nl ("All movies:" :: numbered_names items))
    end
  else if Py.contains "remove movie" lower_text then
    match Py.after_first "remove movie" lower_text with
    | None => raise "list index out of range"
    | Some after =>
        let remainder := Py.strip after in
        if negb (Py.truthy remainder) then
          db_delete [Eq CCategory "movie"];;;
          ret "All movies removed!"
        else
          matching_items <- db_select [Eq CCategory "movie"; ILike CName remainder];;
          match matching_items with
          | _ :: _ =>
              db_delete [Eq CCategory "movie"; ILike CName remainder];;;
              ret ("Removed movie: " ++ remainder)
          | [] => ret ("No movie found matching: " ++ remainder)
          end
    end
  else match movie_re_search lower_text with
  | Some g =>
      let genre := Py.strip g in
      items <- db_select [Eq CCategory "movie"; ILike CNotes ("%" ++ genre ++ "%")];;
      match items with
      | [] => ret ("No recommendations found for " ++ genre ++ " movies.")
      | _ => ret (join_nl (("Recommended " ++ genre ++ " movie(s):")
                           :: numbered_names items))
      end
  | None => ret movie_help
  end.

(* ------------------------------------------------------------------ *)
(** ** agents/tv.py *)

Definition tv_recommendations : string :=
  "Here are a few TV recommendations:" ++ nl ++
  "- Breaking Bad" ++ nl ++
  "- The Office" ++ nl ++
  "- Stranger Things" ++ nl.

Definition tv_help : string :=
  "Not sure what you want to do with TV." ++ nl ++
  "You can say:" ++ nl ++
  "  'list tv shows' (to list everything)," ++ nl ++
  "  'remove tv' (remove all TV items)," ++ nl ++
  "  'remove tv [show]' (remove a single item), or" ++ nl ++
  "  'recommend tv' for recommendations.".

Definition handle_tv_request (body_text user_id : string) : M string :=
  let lower_text := Py.lower body_text in
  if Py.contains "list tv" lower_text || Py.contains "list tv shows" lower_text then
    items <- db_select [Eq CCategory "tv"];;
    match items with
    | [] => ret "No TV items found."
    | _ => ret (join_nl ("All TV items:" :: numbered_names items))
    end
  else if Py.contains "remove tv" lower_text then
    match Py.after_first "remove tv" lower_text with
    | None => raise "list index out of range"
    | Some after =>
        let remainder := Py.strip after in
        if negb (Py.truthy remainder) then
          db_delete [Eq CCategory "tv"];;;
          ret "All TV items removed!"
        else
          let item_name_to_remove := remainder in
          db_delete [Eq CCategory "tv"; Eq CName item_name_to_remove];;;
          ret ("Removed TV item: " ++ item_name_to_remove)
    end
  else if Py.contains "recommend tv" lower_text then ret tv_recommendations
  else ret tv_help.

(* ------------------------------------------------------------------ *)
(** ** agents/restaurant.py *)

(** One attempt of the loop body of [generate_embedding]: the provider
    call and the dimension check, both inside the [try]. *)
Definition embedding_attempt (text : string) : M (list Z) :=
  embedding <- embeddings_create text;;
  if negb (length embedding =? 1536)%nat then
    raise ("Expected 1536-dimensional embedding, got " ++ str_nat (length embedding))
  else ret embedding.

(** [for attempt in range(max_retries): try ... except Exception as e:
    if attempt == max_retries - 1: raise; time.sleep(1)]; falling off the
    loop returns [None]. *)
Fixpoint embedding_loop (text : string) (max_retries attempt fuel : nat)
  : M (option (list Z)) :=
  match fuel with
  | 0 => ret None
  | S fuel' =>
      try_except (v <- embedding_attempt text;; ret (Some v))
        (fun e =>
           if (attempt =? max_retries - 1)%nat then raise e
           else sleep 1;;; embedding_loop text max_retries (S attempt) fuel')
  end.

Definition generate_embedding (text : string) (max_retries : nat)
  : M (option (list Z)) :=
  embedding_loop text max_retries 0 max_retries.

Definition restaurant_help : string :=
  "Not sure what you want to do with restaurants." ++ nl ++
  "You can say:" ++ nl ++
  "  'list restaurants' (to list everything)," ++ nl ++
  "  'remove restaurant' (remove all items)," ++ nl ++
  "  'remove restaurant [item]' (remove a single item)," ++ nl ++
  "  or 'recommend a fancy place' for an embedding-based recommendation.".

(** [row["notes"] or "No notes available"] *)
Definition notes_or_default (it : item) : string :=
  match i_notes it with
  | Some n => if Py.truthy n then n else "No notes available"
  | None => "No notes available"
  end.

Definition build_prompt (user_query : string) (top_rows : list item) : string :=
  let context_lines :=
    enum_lines 1 (fun i row => str_nat i ++ ") " ++ i_name row ++ ": " ++
                               notes_or_default row) top_rows in
  "User Query: " ++ user_query ++ nl ++ nl ++
  "Here are the top matching restaurants:" ++ nl ++
  join_nl context_lines ++
  nl ++ nl ++ "Please provide a short recommendation that best fits the user's request.".

(** Steps A-D of the recommend branch. A Python [return] inside a [try]
    is an [inl] here: the flow stops with that reply. *)
Definition restaurant_recommend (body_text : string) : M string :=
  let user_query := body_text in
  step_a <- try_except (v <- generate_embedding user_query 3;; ret (inr v))
                       (fun e => ret (inl ("Error generating embedding for query: " ++ e)));;
  match step_a with
  | inl reply => ret reply
  | inr query_vec =>
      step_b <- try_except
                  (rows <- db_rpc 3;;
                   match rows with
                   | [] => ret (inl "No relevant restaurants found via vector search.")
                   | _ => ret (inr rows)
                   end)
                  (fun e => ret (inl ("Error performing vector search: " ++ e)));;
      match step_b with
      | inl reply => ret reply
      | inr top_rows =>
          let prompt_for_llm := build_prompt user_query top_rows in
          try_except
            (content <- chat_create prompt_for_llm 120;; ret (Py.strip content))
            (fun e => ret ("Error calling LLM for final recommendation: " ++ e))
      end
  end.

Definition handle_restaurant_request (body_text user_id : string) : M string :=
  let lower_text := Py.lower body_text in
  if Py.contains "list" lower_text then
    items <- db_select [Eq CCategory "restaurant"];;
    match items with
    | [] => ret "No restaurant items found."
    | _ => ret (join_nl ("All restaurant items:" :: numbered_names items))
    end
  else if Py.contains "remove restaurant" lower_text then
    match Py.after_first "remove restaurant" lower_text with
    | None => raise "list index out of range"
    | Some after =>
        let remainder := Py.strip after in
        if negb (Py.truthy remainder) then
          db_delete [Eq CCategory "restaurant"];;;
          ret "All restaurant items removed!"
        else
          let item_name_to_remove := remainder in
          db_delete [Eq CCategory "restaurant"; Eq CName item_name_to_remove];;;
          ret ("Removed restaurant item: " ++ item_name_to_remove)
    end
  else if Py.contains "recommend" lower_text then restaurant_recommend body_text
  else ret restaurant_help.

(* ------------------------------------------------------------------ *)
(** ** main.py: the dispatcher and the webhook *)

(** The TwiML reply: the message and the HTTP status (always 200). *)
Record response := mk_response { r_message : string; r_status : nat }.

Definition twilio_response (message : string) (is_error : bool) : response :=
  mk_response message 200.

Definition generic_help : string :=
  "Sorry, Iâ€™m not sure what you need." ++ nl ++
  "Try sending:" ++ nl ++
  "  Grocery" ++ nl ++
  "  Bananas" ++ nl ++ nl ++
  "OR" ++ nl ++
  "  Remove grocery bananas" ++ nl ++
  "to remove an item.".

Definition handle_request (from_number body_text : string) : M string :=
  let text_lower := Py.lower body_text in
  if Py.contains "grocery" text_lower then
    handle_grocery_request body_text from_number
  else ret generic_help.

(** [store_data_entry]; parsing is [parse_entry] above. *)
Definition store_data_entry (from_number body_text : string) : M response :=
  match parse_entry body_text with
  | inl e => raise e
  | inr None => ret (twilio_response "Error: Missing category or name." true)
  | inr (Some e) =>
      w <- get_world;;
      let now := w_now w in
      try_except
        (data <- db_insert (fun id => mk_item id from_number (e_category e)
                                        (e_subcategory e) (e_name e) None now);;
         match data with
         | [] => ret (twilio_response "Database error: No data returned" true)
         | _ => ret (twilio_response "Stored!" false)
         end)
        (fun msg => ret (twilio_response ("Unexpected error: " ++ msg) true))
  end.

(** [receive_sms]: the form fields [From] and [Body] may be absent. An
    [Exn] result is an exception escaping the endpoint. *)
Definition receive_sms (from_field body_field : option string) : M response :=
  match from_field, body_field with
  | Some from_number, Some body_text =>
      if Py.truthy from_number && Py.truthy body_text then
        if is_data_entry_format body_text then store_data_entry from_number body_text
        else answer <- handle_request from_number body_text;;
             ret (twilio_response answer false)
      else ret (twilio_response "Error: Missing phone number or message body." true)
  | _, _ => ret (twilio_response "Error: Missing phone number or message body." true)
  end.

(** What a JSON endpoint produces: its return value, or the
    [HTTPException(status_code, detail)] it raises, which the framework
    turns into the HTTP error reply. *)
Inductive http_reply :=
| HttpJson (status_field : string) (data : list item)
| HttpException (status_code : nat) (detail : string).

(** [str(HTTPException(code, detail))] is ["<code>: <detail>"]. *)
Definition http_exception_str (status_code : nat) (detail : string) : string :=
  str_nat status_code ++ ": " ++ detail.

(** [test_insert]: a fixed sample row; the [HTTPException(400)] raised
    inside the [try] is caught by [except Exception] and re-raised as a
    500 carrying its [str]. *)
Definition test_insert : M http_reply :=
  try_except
    (w <- get_world;;
     let now := w_now w in
     data <- db_insert (fun id => mk_item id "+1234567890" "testcategory"
                                     (Some "testsubcategory") "Just a test item" None now);;
     match data with
     | [] => raise (http_exception_str 400 "Supabase error: No data returned")
     | _ => ret (HttpJson "success" data)
     end)
    (fun e => ret (HttpException 500 e)).

(* ------------------------------------------------------------------ *)
(** ** embeddings.py: the per-row loop of [generate_restaurant_embeddings]

    The rows are those of the select at line 62 (restaurant rows whose
    [embedding] column is null); [item] does not carry that column, so the
    loop takes them as input and returns the writes it performed, in
    order, next to the lines it printed. The module's own
    [generate_embedding] is the same code as the one above. *)

(** [f"{name} {notes}".strip()] with [row.get(...) or ""]. *)
Definition text_to_embed (row : item) : string :=
  let name := i_name row in
  let notes := match i_notes row with Some n => n | None => "" end in
  Py.strip (name ++ " " ++ notes).

(** [table("items").update({"embedding": vector}).eq("id", row_id).execute()] *)
Definition db_update_embedding (row_id : nat) (vector : option (list Z)) : M unit :=
  fun w => match w_db_error w with
           | Some e => (Exn e, w)
           | None => (Ok tt, w)
           end.

Fixpoint backfill_rows (rows : list item)
  : M (list (nat * option (list Z)) * list string) :=
  match rows with
  | [] => ret ([], [])
  | row :: rows' =>
      let row_id := i_id row in
      let text := text_to_embed row in
      if negb (Py.truthy text) then backfill_rows rows'
      else
        step <- try_except (v <- generate_embedding text 3;; ret (inr v))
                  (fun e => ret (inl ("Error generating embedding for row " ++
                                      str_nat row_id ++ ": " ++ e)));;
        match step with
        | inl msg =>
            r <- backfill_rows rows';;
            ret (fst r, msg :: snd r)
        | inr vector =>
            upd <- try_except (db_update_embedding row_id vector;;; ret None)
                     (fun e => ret (Some ("Error updating Supabase for row " ++
                                          str_nat row_id ++ ": " ++ e)));;
            r <- backfill_rows rows';;
            match upd with
            | None => ret ((row_id, vector) :: fst r, snd r)
            | Some msg => ret (fst r, msg :: snd r)
            end
        end
  end.

(* ------------------------------------------------------------------ *)
(** ** The Entry Parser as the specification words it (section 4.2)

    Line 1 is split on its first comma into category (left) and
    subcategory (right, [None] when empty after trimming); the trimmed
    line 2 is the name; all three are lowercased; the parse fails exactly
    when the trimmed category or the trimmed name is empty. *)
Definition entry_parser_spec (body_text : string) : option entry :=
  let lines := Py.split_char newline (Py.strip body_text) in
  let line1 := nth 0 lines EmptyString in
  let line2 := nth 1 lines EmptyString in
  let '(left_part, right_part) :=
    match Py.split_char_once comma line1 with
    | Some (l, r) => (l, Some r)
    | None => (line1, None)
    end in
  let category := Py.strip left_part in
  let name := Py.strip line2 in
  if String.eqb category EmptyString || String.eqb name EmptyString then None
  else Some (mk_entry (Py.lower category)
                      (match right_part with
                       | Some r => if String.eqb (Py.strip r) EmptyString then None
                                   else Some (Py.lower (Py.strip r))
                       | None => None
                       end)
                      (Py.lower name)).

(** The exception one attempt of [generate_embedding] raises on a given
    provider answer, if any: the provider's own error, or the
    dimension-check [ValueError]. *)
Definition emb_failure (r : emb_resp) : option string :=
  match r with
  | EmbFail e => Some e
  | EmbVec v =>
      if (length v =? 1536)%nat then None
      else Some ("Expected 1536-dimensional embedding, got " ++ str_nat (length v))
  end.

(** A store with the given rows, up, whose inserts return data, and
    providers that answer as given. *)
Definition world_of (its : list item) (emb : list emb_resp) : world :=
  mk_world its (S (length its)) None true emb (RpcRows []) (LlmText "") "2025-01-01T00:00:00" [].

(** A computation that never adds or changes rows: the rows afterwards
    are the rows before, filtered. *)
Definition removes_only {A} (m : M A) : Prop :=
  forall w, exists keep : item -> bool, w_items (snd (m w)) = filter keep (w_items w).

(** The calls made by [k] attempts of [generate_embedding]'s loop: one
    provider call per attempt, with a one-second sleep between two
    attempts. *)
Fixpoint retry_log (text : string) (k : nat) : list event :=
  match k with
  | 0 => []
  | S k' => EEmbed text :: match k' with
                           | 0 => []
                           | S _ => ESleep 1 :: retry_log text k'
                           end
  end.

(** Two provider answers that [generate_embedding] cannot tell apart: the
    same failure (a provider error or a failed dimension check with the
    same message), or the same accepted vector. *)
Definition emb_equiv (r r' : emb_resp) : Prop :=
  emb_failure r = emb_failure r' /\ (emb_failure r = None -> r = r').

(** Two worlds that differ at most in indistinguishable provider answers. *)
Definition same_but_emb (w1 w2 : world) : Prop :=
  set_emb w1 (w_emb w2) = w2 /\ Forall2 emb_equiv (w_emb w1) (w_emb w2).

(** What the backfill loop did for one row with a non-empty text: a write
    of the row's embedding, or a printed error line. *)
Inductive row_outcome :=
| Wrote (row_id : nat) (vector : option (list Z))
| Printed (line : string).

Definition row_outcome_ok (row : item) (o : row_outcome) : Prop :=
  match o with
  | Wrote row_id vector =>
      row_id = i_id row /\ exists v, vector = Some v /\ length v = 1536%nat
  | Printed line =>
      exists e, line = "Error generating embedding for row " ++ str_nat (i_id row) ++ ": " ++ e \/
                line = "Error updating Supabase for row " ++ str_nat (i_id row) ++ ": " ++ e
  end.

Definition writes_of (outs : list row_outcome) : list (nat * option (list Z)) :=
  flat_map (fun o => match o with Wrote i v => [(i, v)] | Printed _ => [] end) outs.

Definition printed_of (outs : list row_outcome) : list string :=
  flat_map (fun o => match o with Wrote _ _ => [] | Printed l => [l] end) outs.

(** A [LIKE] pattern with no wildcard and no escape character: it only
    stands for itself. *)
Definition like_literal_char (c : ascii) : bool :=
  negb (Ascii.eqb c "%" || Ascii.eqb c "*" || Ascii.eqb c "_" || Ascii.eqb c "\").

Fixpoint like_literal (p : string) : bool :=
  match p with
  | EmptyString => true
  | String c p' => like_literal_char c && like_literal p'
  end.

(* ================================================================== *)
(** * Lemmas about the string primitives *)

Module StrFacts.
Import Py.

Lemma lstrip_idem s : lstrip (lstrip s) = lstrip s.
Proof.
  induction s as [|c s IH]; simpl; [reflexivity|].
  destruct (is_space c) eqn:Hc; [exact IH|simpl; now rewrite Hc].
Qed.

Lemma rstrip_cons c s :
  rstrip (String c s) =
  match rstrip s with
  | EmptyString => if is_space c then EmptyString else String c EmptyString
  | _ => String c (rstrip s)
  end.
Proof. reflexivity. Qed.

Lemma rstrip_idem s : rstrip (rstrip s) = rstrip s.
Proof.
  induction s as [|c s IH]; [reflexivity|].
  rewrite rstrip_cons. destruct (rstrip s) as [|d r] eqn:Hr.
  - destruct (is_space c) eqn:Hc; simpl; [reflexivity|now rewrite Hc].
  - rewrite rstrip_cons, IH. reflexivity.
Qed.

Lemma lstrip_rstrip s : lstrip (rstrip s) = rstrip (lstrip s).
Proof.
  induction s as [|c s IH]; simpl; [reflexivity|].
  destruct (is_space c) eqn:Hc.
  - rewrite <- IH. destruct (rstrip s) as [|d r]; simpl; [reflexivity|].
    now rewrite Hc.
  - simpl. destruct (rstrip s) as [|d r]; simpl; rewrite Hc; reflexivity.
Qed.

Lemma strip_idem s : strip (strip s) = strip s.
Proof.
  unfold strip. rewrite lstrip_rstrip, lstrip_idem, rstrip_idem. reflexivity.
Qed.

Lemma strip_lstrip s : strip (lstrip s) = strip s.
Proof. unfold strip. now rewrite lstrip_idem. Qed.

Lemma strip_rstrip s : strip (rstrip s) = strip s.
Proof. unfold strip. now rewrite lstrip_rstrip, rstrip_idem. Qed.

Lemma truthy_lower s : truthy (lower s) = truthy s.
Proof. now destruct s. Qed.

Lemma truthy_eqb s : truthy s = negb (String.eqb s EmptyString).
Proof. now destruct s. Qed.

Lemma split_once_some c s a b :
  split_char_once c s = Some (a, b) ->
  s = a ++ String c b /\ split_char_once c a = None.
Proof.
  revert a b. induction s as [|x s IH]; intros a b H; simpl in H; [discriminate|].
  destruct (Ascii.eqb x c) eqn:Hx.
  - inversion H; subst. apply Ascii.eqb_eq in Hx. subst. auto.
  - destruct (split_char_once c s) as [[l r]|] eqn:Hs; [|discriminate].
    inversion H; subst. destruct (IH l b eq_refl) as [-> Hl].
    split; [reflexivity|]. simpl. now rewrite Hx, Hl.
Qed.

Lemma split_once_app c a b :
  split_char_once c a = None -> split_char_once c (a ++ String c b) = Some (a, b).
Proof.
  induction a as [|x a IH]; intros H; simpl.
  - now rewrite Ascii.eqb_refl.
  - simpl in H. destruct (Ascii.eqb x c); [discriminate|].
    destruct (split_char_once c a) as [[? ?]|]; [discriminate|].
    now rewrite (IH eq_refl).
Qed.

Lemma split_once_lstrip c s :
  split_char_once c s = None -> split_char_once c (lstrip s) = None.
Proof.
  induction s as [|x s IH]; intros H; simpl; [reflexivity|].
  simpl in H. destruct (is_space x); [|exact H].
  apply IH. destruct (Ascii.eqb x c); [discriminate|].
  destruct (split_char_once c s) as [[]|]; [discriminate|reflexivity].
Qed.

Lemma split_once_rstrip c s :
  split_char_once c s = None -> split_char_once c (rstrip s) = None.
Proof.
  induction s as [|x s IH]; intros H; simpl; [reflexivity|].
  simpl in H. destruct (Ascii.eqb x c) eqn:Hx; [discriminate|].
  destruct (split_char_once c s) as [[]|]; [discriminate|].
  specialize (IH eq_refl).
  destruct (rstrip s) as [|d r] eqn:Hr.
  - destruct (is_space x); simpl; [reflexivity|now rewrite Hx].
  - simpl. rewrite Hx. simpl in IH. now rewrite IH.
Qed.

Lemma comma_not_space : is_space comma = false.
Proof. reflexivity. Qed.

Lemma lstrip_app_comma a b :
  lstrip (a ++ String comma b) = lstrip a ++ String comma b.
Proof.
  induction a as [|x a IH]; simpl; [reflexivity|].
  destruct (is_space x); [exact IH|reflexivity].
Qed.

Lemma rstrip_app_comma a b :
  rstrip (a ++ String comma b) = a ++ String comma (rstrip b).
Proof.
  induction a as [|x a IH]; simpl.
  - destruct (rstrip b); reflexivity.
  - rewrite IH. destruct a; reflexivity.
Qed.

Lemma strip_app_comma a b :
  strip (a ++ String comma b) = lstrip a ++ String comma (rstrip b).
Proof.
  unfold strip. rewrite lstrip_app_comma, rstrip_app_comma. reflexivity.
Qed.

End StrFacts.

Module LineFacts.
Import Py.

Lemma split_char_nonempty c s : split_char c s <> [].
Proof.
  induction s as [|x s IH]; simpl; [discriminate|].
  destruct (Ascii.eqb x c); [discriminate|].
  destruct (split_char c s); discriminate.
Qed.

Lemma split_char_two c s :
  (2 <= length (split_char c s))%nat <-> exists x y, s = x ++ String c y.
Proof.
  induction s as [|z s IH]; simpl.
  - split; [lia|]. intros (x & y & H). destruct x; discriminate.
  - destruct (Ascii.eqb z c) eqn:Hz.
    + apply Ascii.eqb_eq in Hz. subst. split; [intros _; now exists EmptyString, s|].
      intros _. pose proof (split_char_nonempty c s).
      destruct (split_char c s); [congruence|simpl; lia].
    + assert (Hl : length (match split_char c s with
                           | l :: ls => String z l :: ls
                           | [] => [String z EmptyString] end)
                   = length (split_char c s)).
      { pose proof (split_char_nonempty c s).
        destruct (split_char c s); [congruence|reflexivity]. }
      rewrite Hl, IH. split.
      * intros (x & y & ->). now exists (String z x), y.
      * intros (x & y & H). destruct x as [|z' x]; simpl in H.
        -- inversion H; subst. now rewrite Ascii.eqb_refl in Hz.
        -- inversion H; subst. now exists x, y.
Qed.

End LineFacts.

(* ================================================================== *)
(** * Claims *)

(** ** C7 (Text Classifier): a message is a data entry if and only if,
    after stripping leading and trailing whitespace, splitting it on
    newlines gives at least two lines; equivalently, iff the stripped text
    contains a newline. Nothing else about the text is inspected. *)
Theorem C7_data_entry_iff_two_lines (body_text : string) :
  (is_data_entry_format body_text = true <->
     (2 <= length (Py.split_char newline (Py.strip body_text)))%nat) /\
  (is_data_entry_format body_text = true <->
     exists line1 rest, Py.strip body_text = line1 ++ String newline rest).
Proof.
  unfold is_data_entry_format. rewrite Nat.leb_le.
  split; [reflexivity|]. apply LineFacts.split_char_two.
Qed.

(** ** C8 (Entry Parser): on a data-entry body the parser of
    [store_data_entry] computes exactly what the specification describes
    ([entry_parser_spec]): first-comma split of line 1, [None] subcategory
    when empty after trimming, trimmed line 2 as name, all lowercased, and
    failure exactly when the trimmed category or name is empty; and
    ["Grocery, Produce\nBananas"] gives [grocery], [produce], [bananas]. *)
Theorem C8_entry_parser_matches_spec :
  (forall body_text, is_data_entry_format body_text = true ->
     parse_entry body_text = inr (entry_parser_spec body_text)) /\
  parse_entry ("Grocery, Produce" ++ nl ++ "Bananas")
    = inr (Some (mk_entry "grocery" (Some "produce") "bananas")).
Proof.
  split; [|reflexivity].
  intros body H. unfold is_data_entry_format in H.
  unfold parse_entry, entry_parser_spec.
  destruct (Py.split_char newline (Py.strip body)) as [|l1 [|l2 rest]];
    simpl in H; try discriminate. simpl nth.
  rewrite StrFacts.strip_idem, StrFacts.truthy_lower, (StrFacts.truthy_eqb (Py.strip l2)).
  destruct (Py.split_char_once comma l1) as [[a b]|] eqn:Hs.
  - destruct (StrFacts.split_once_some _ _ _ _ Hs) as [-> Ha].
    rewrite StrFacts.strip_app_comma,
            (StrFacts.split_once_app _ _ _ (StrFacts.split_once_lstrip _ _ Ha)).
    rewrite StrFacts.strip_lstrip, StrFacts.strip_rstrip, !StrFacts.truthy_lower,
            !StrFacts.truthy_eqb.
    destruct (String.eqb (Py.strip a) EmptyString), (String.eqb (Py.strip l2) EmptyString),
             (String.eqb (Py.strip b) EmptyString); reflexivity.
  - unfold Py.strip at 1.
    rewrite (StrFacts.split_once_rstrip _ _ (StrFacts.split_once_lstrip _ _ Hs)).
    rewrite StrFacts.truthy_lower, StrFacts.truthy_eqb.
    destruct (String.eqb (Py.strip l1) EmptyString), (String.eqb (Py.strip l2) EmptyString);
      reflexivity.
Qed.

(* ------------------------------------------------------------------ *)
(** ** Lemmas about the monad and the collaborators *)

Module Eff.

Lemma prefix_app p q s : prefix (p ++ q) s = true -> prefix p s = true.
Proof.
  revert s. induction p as [|c p IH]; intros s H; [destruct s; reflexivity|].
  destruct s as [|d s]; simpl in *; [discriminate|].
  destruct (ascii_dec c d); [now apply IH|discriminate].
Qed.

Lemma contains_app p q s : Py.contains (p ++ q) s = true -> Py.contains p s = true.
Proof.
  induction s as [|c s IH]; cbn [Py.contains]; intros H.
  - apply orb_true_iff in H as [H|H]; [|discriminate].
    apply prefix_app in H. now rewrite H.
  - apply orb_true_iff in H as [H|H].
    + apply prefix_app in H. now rewrite H.
    + rewrite (IH H). apply orb_true_r.
Qed.

Lemma after_first_contains sep s a :
  Py.after_first sep s = Some a -> Py.contains sep s = true.
Proof.
  induction s as [|c s IH]; cbn [Py.after_first Py.contains]; intros H.
  - destruct (prefix sep EmptyString); [reflexivity|discriminate].
  - destruct (prefix sep (String c s)); [reflexivity|].
    rewrite (IH H). apply orb_true_r.
Qed.

Lemma filter_nil_existsb {A} (f : A -> bool) l :
  existsb f l = false -> filter f l = [].
Proof.
  induction l as [|x l IH]; simpl; [reflexivity|].
  destruct (f x); [discriminate|exact IH].
Qed.

Lemma existsb_filter_cons {A} (f : A -> bool) l :
  existsb f l = true -> exists x l', filter f l = x :: l'.
Proof.
  induction l as [|x l IH]; simpl; [discriminate|].
  destruct (f x); [eauto|exact IH].
Qed.

(** A [select] leaves the rows alone and logs one call. *)
Lemma db_select_ok q w :
  w_db_error w = None -> forallb cond_valid q = true ->
  db_select q w = (Ok (filter (matches q) (w_items w)), add_event w ESelect).
Proof.
  intros He Hq. destruct w; simpl in He; subst.
  unfold db_select, db_guard, bind, emit, get_world, ret. simpl. now rewrite Hq.
Qed.

Lemma db_select_effect q w :
  w_items (snd (db_select q w)) = w_items w /\
  w_log (snd (db_select q w)) = (w_log w ++ [ESelect])%list.
Proof.
  destruct w as [its nid [e|] ins emb rpc llm now log];
    unfold db_select, db_guard, bind, emit, get_world, ret, raise; simpl; [auto|].
  destruct (forallb cond_valid q); simpl; auto.
Qed.

Lemma db_delete_ok q w :
  w_db_error w = None -> forallb cond_valid q = true ->
  db_delete q w =
    (Ok tt, set_items (add_event w EDelete)
                      (filter (fun it => negb (matches q it)) (w_items w)) (w_next_id w)).
Proof.
  intros He Hq. destruct w; simpl in He; subst.
  unfold db_delete, db_guard, bind, emit, get_world, ret. simpl. now rewrite Hq.
Qed.

Lemma attempt_fails text w r rest m :
  w_emb w = r :: rest -> emb_failure r = Some m ->
  embedding_attempt text w = (Exn m, set_emb (add_event w (EEmbed text)) rest).
Proof.
  intros Hw Hr. destruct w; simpl in Hw; subst.
  unfold embedding_attempt, embeddings_create, bind, emit, ret, raise. simpl.
  destruct r as [v|e]; simpl in Hr.
  - destruct (length v =? 1536)%nat; [discriminate|]. now inversion Hr.
  - now inversion Hr.
Qed.

Lemma attempt_ok text w v rest :
  w_emb w = EmbVec v :: rest -> length v = 1536%nat ->
  embedding_attempt text w = (Ok v, set_emb (add_event w (EEmbed text)) rest).
Proof.
  intros Hw Hv. destruct w; simpl in Hw; subst.
  unfold embedding_attempt, embeddings_create, bind, emit, ret, raise. simpl.
  now rewrite Hv.
Qed.

(** A failed attempt that is not the last one sleeps a second and retries. *)
Lemma loop_retry text n a fuel w r rest m :
  (a =? n - 1)%nat = false -> w_emb w = r :: rest -> emb_failure r = Some m ->
  embedding_loop text n a (S fuel) w =
  embedding_loop text n (S a) fuel
    (add_event (set_emb (add_event w (EEmbed text)) rest) (ESleep 1)).
Proof.
  intros Ha Hw Hr. simpl. unfold try_except, bind at 1.
  rewrite (attempt_fails text w r rest m Hw Hr), Ha. reflexivity.
Qed.

(** A failed last attempt re-raises. *)
Lemma loop_last text n a fuel w r rest m :
  (a =? n - 1)%nat = true -> w_emb w = r :: rest -> emb_failure r = Some m ->
  embedding_loop text n a (S fuel) w = (Exn m, set_emb (add_event w (EEmbed text)) rest).
Proof.
  intros Ha Hw Hr. simpl. unfold try_except, bind at 1.
  rewrite (attempt_fails text w r rest m Hw Hr), Ha. reflexivity.
Qed.

Lemma loop_success text n a fuel w v rest :
  w_emb w = EmbVec v :: rest -> length v = 1536%nat ->
  embedding_loop text n a (S fuel) w =
    (Ok (Some v), set_emb (add_event w (EEmbed text)) rest).
Proof.
  intros Hw Hv. simpl. unfold try_except, bind at 1.
  rewrite (attempt_ok text w v rest Hw Hv). reflexivity.
Qed.

End Eff.

(** ** C10 (list before remove): in the grocery and restaurant handlers
    the list test comes first and looks for ["list"] anywhere in the
    lowercased message, so every such message (for instance
    ["remove grocery list"]) is answered by a single select, whatever
    else it contains: the rows are untouched and no delete is issued. *)
Theorem C10_list_check_wins (body_text user_id : string) (w : world)
  (Hlist : Py.contains "list" (Py.lower body_text) = true) :
  (let '(_, w') := handle_grocery_request body_text user_id w in
   w_items w' = w_items w /\ w_log w' = (w_log w ++ [ESelect])%list) /\
  (let '(_, w') := handle_restaurant_request body_text user_id w in
   w_items w' = w_items w /\ w_log w' = (w_log w ++ [ESelect])%list).
Proof.
  unfold handle_grocery_request, handle_restaurant_request. rewrite Hlist.
  split; unfold bind at 1;
    match goal with |- context [db_select ?q w] =>
      pose proof (Eff.db_select_effect q w) as [Hi Hl];
      destruct (db_select q w) as [[its|e] w'] end;
    simpl in Hi, Hl; [destruct its| |destruct its|]; simpl; auto.
Qed.

(** ** C9 (recommendation flow, embedding failures): when the request
    reaches the recommend branch and the embedding provider call fails on
    each of the 3 attempts, the reply is the embedding-error message built
    from the last failure; the only external calls are the three embedding
    calls separated by two 1-second sleeps, so neither the similarity
    search RPC nor the LLM is called, and no row changes. *)
Theorem C9_embedding_failures_stop_flow (body_text user_id : string) (w : world)
  (r1 r2 r3 : emb_resp) (rest : list emb_resp) (m1 m2 m3 : string)
  (Hl : Py.contains "list" (Py.lower body_text) = false)
  (Hrm : Py.contains "remove restaurant" (Py.lower body_text) = false)
  (Hrec : Py.contains "recommend" (Py.lower body_text) = true)
  (Hemb : w_emb w = r1 :: r2 :: r3 :: rest)
  (H1 : emb_failure r1 = Some m1) (H2 : emb_failure r2 = Some m2)
  (H3 : emb_failure r3 = Some m3) :
  let '(reply, w') := handle_restaurant_request body_text user_id w in
  reply = Ok ("Error generating embedding for query: " ++ m3) /\
  w_log w' = (w_log w ++ [EEmbed body_text; ESleep 1; EEmbed body_text;
                          ESleep 1; EEmbed body_text])%list /\
  w_items w' = w_items w.
Proof.
  unfold handle_restaurant_request. rewrite Hl, Hrm, Hrec.
  unfold restaurant_recommend, try_except, bind at 1 2, generate_embedding.
  rewrite (Eff.loop_retry body_text 3 0 2 w r1 (r2 :: r3 :: rest) m1 eq_refl Hemb H1).
  rewrite (Eff.loop_retry body_text 3 1 1 _ r2 (r3 :: rest) m2 eq_refl);
    [|destruct w; simpl in *; now subst|exact H2].
  rewrite (Eff.loop_last body_text 3 2 0 _ r3 rest m3 eq_refl);
    [|destruct w; simpl in *; now subst|exact H3].
  destruct w. simpl. rewrite <- !app_assoc. auto.
Qed.

Module MismatchFacts.

Lemma attempt_formula text w :
  embedding_attempt text w =
  match w_emb w with
  | [] => (Exn "APIConnectionError", add_event w (EEmbed text))
  | r :: rest =>
      (match emb_failure r with
       | Some m => Exn m
       | None => match r with EmbVec v => Ok v | EmbFail e => Exn e end
       end, set_emb (add_event w (EEmbed text)) rest)
  end.
Proof.
  destruct w as [its nid dberr ins emb rpc llm now log].
  destruct emb as [|[v|e] rest];
    unfold embedding_attempt, embeddings_create, bind, emit, ret, raise; simpl;
    [reflexivity| |reflexivity].
  destruct (length v =? 1536)%nat; reflexivity.
Qed.

Lemma mismatch_failure u :
  length u <> 1536%nat ->
  emb_failure (EmbVec u) = Some ("Expected 1536-dimensional embedding, got " ++ str_nat (length u)).
Proof. intros Hu. simpl. apply Nat.eqb_neq in Hu. now rewrite Hu. Qed.

Lemma equiv_refl l : Forall2 emb_equiv l l.
Proof.
  induction l as [|r l IH]; constructor; [|exact IH].
  split; [reflexivity|intros _; reflexivity].
Qed.

Lemma sbe_set w1 w2 l1 l2 :
  same_but_emb w1 w2 -> Forall2 emb_equiv l1 l2 -> same_but_emb (set_emb w1 l1) (set_emb w2 l2).
Proof.
  intros [He _] Hl. destruct w1, w2; unfold same_but_emb, set_emb in *; simpl in *.
  injection He; intros; subst. split; [reflexivity|exact Hl].
Qed.

Lemma sbe_add w1 w2 ev :
  same_but_emb w1 w2 -> same_but_emb (add_event w1 ev) (add_event w2 ev).
Proof.
  intros [He Hf]. destruct w1, w2; unfold same_but_emb, set_emb, add_event in *; simpl in *.
  injection He; intros; subst. split; [reflexivity|exact Hf].
Qed.

Lemma sbe_log_items w1 w2 :
  same_but_emb w1 w2 -> w_log w1 = w_log w2 /\ w_items w1 = w_items w2.
Proof. intros [He _]. destruct w1, w2; simpl in *. injection He; intros; subst. now split. Qed.

Lemma sbe_attempt text w1 w2 :
  same_but_emb w1 w2 ->
  fst (embedding_attempt text w1) = fst (embedding_attempt text w2) /\
  same_but_emb (snd (embedding_attempt text w1)) (snd (embedding_attempt text w2)).
Proof.
  intros H. rewrite !attempt_formula. pose proof H as [He Hf].
  destruct (w_emb w1) as [|r1 l1] eqn:E1, (w_emb w2) as [|r2 l2] eqn:E2;
    inversion Hf as [|x y l1' l2' Hr Hl]; subst.
  - split; [reflexivity|]. now apply sbe_add.
  - destruct Hr as [Hfail Hnone]. rewrite Hfail. simpl.
    split.
    + destruct (emb_failure r2) eqn:F; [reflexivity|]. rewrite (Hnone ltac:(congruence)). reflexivity.
    + apply sbe_set; [now apply sbe_add|exact Hl].
Qed.

Lemma sbe_loop text n fuel : forall a w1 w2,
  same_but_emb w1 w2 ->
  let '(o1, w1') := embedding_loop text n a fuel w1 in
  let '(o2, w2') := embedding_loop text n a fuel w2 in
  o1 = o2 /\ same_but_emb w1' w2'.
Proof.
  induction fuel as [|f IH]; intros a w1 w2 H.
  - simpl. unfold ret. now split.
  - cbn [embedding_loop]. unfold try_except, bind at 1 3.
    pose proof (sbe_attempt text w1 w2 H) as [Ho Hs].
    destruct (embedding_attempt text w1) as [o1 w1'], (embedding_attempt text w2) as [o2 w2'].
    simpl in Ho, Hs. subst o2.
    destruct o1 as [v|e]; [unfold ret; now split|].
    destruct (a =? n - 1)%nat; [unfold raise; now split|].
    unfold sleep, emit, bind.
    exact (IH (S a) (add_event w1' (ESleep 1)) (add_event w2' (ESleep 1)) (sbe_add _ _ _ Hs)).
Qed.

Lemma recover text n v rest (Hv : length v = 1536%nat) bad : forall a fuel w,
  (a + fuel = n)%nat -> (length bad < fuel)%nat ->
  Forall (fun u => length u <> 1536%nat) bad ->
  w_emb w = (map EmbVec bad ++ EmbVec v :: rest)%list ->
  let '(r, w') := embedding_loop text n a fuel w in
  r = Ok (Some v) /\ w_log w' = (w_log w ++ retry_log text (S (length bad)))%list.
Proof.
  induction bad as [|u bad IH]; intros a fuel w Ha Hlt Hb Hw;
    (destruct fuel as [|f]; [simpl in Hlt; lia|]).
  - rewrite (Eff.loop_success text n a f w v rest Hw Hv). split; [reflexivity|].
    destruct w; reflexivity.
  - inversion Hb as [|u' bad' Hu Hb']; subst u' bad'.
    assert (Hlast : (a =? n - 1)%nat = false) by (apply Nat.eqb_neq; simpl in Hlt; lia).
    rewrite (Eff.loop_retry text n a f w (EmbVec u) _ _ Hlast Hw (mismatch_failure u Hu)).
    specialize (IH (S a) f (add_event (set_emb (add_event w (EEmbed text))
                                                (map EmbVec bad ++ EmbVec v :: rest)%list)
                                      (ESleep 1))
                   ltac:(lia) ltac:(simpl in Hlt; lia) Hb' ltac:(destruct w; reflexivity)).
    destruct (embedding_loop _ _ _ _ _) as [r w']. destruct IH as [Hr Hl].
    split; [exact Hr|]. rewrite Hl. destruct w; simpl. rewrite <- !app_assoc. reflexivity.
Qed.

Lemma exhaust text n rest bad : forall a fuel w,
  (a + fuel = n)%nat -> length bad = fuel -> (1 <= fuel)%nat ->
  Forall (fun u => length u <> 1536%nat) bad ->
  w_emb w = (map EmbVec bad ++ rest)%list ->
  let '(r, w') := embedding_loop text n a fuel w in
  r = Exn ("Expected 1536-dimensional embedding, got " ++ str_nat (length (last bad []))) /\
  w_log w' = (w_log w ++ retry_log text fuel)%list.
Proof.
  induction bad as [|u bad IH]; intros a fuel w Ha Hlen H1 Hb Hw; [simpl in Hlen; lia|].
  inversion Hb as [|u' bad' Hu Hb']; subst u' bad'.
  destruct bad as [|u2 bad].
  - simpl in Hw, Hlen |- *. subst fuel.
    assert (Hlast : (a =? n - 1)%nat = true) by (apply Nat.eqb_eq; lia).
    rewrite (Eff.loop_last text n a 0 w (EmbVec u) rest _ Hlast Hw (mismatch_failure u Hu)).
    split; [reflexivity|]. destruct w; reflexivity.
  - simpl in Hlen. subst fuel.
    assert (Hlast : (a =? n - 1)%nat = false) by (apply Nat.eqb_neq; lia).
    rewrite (Eff.loop_retry text n a (S (length bad)) w (EmbVec u) _ _
                             Hlast Hw (mismatch_failure u Hu)).
    specialize (IH (S a) (S (length bad))
                   (add_event (set_emb (add_event w (EEmbed text))
                                       (map EmbVec (u2 :: bad) ++ rest)%list) (ESleep 1))
                   ltac:(simpl; lia) eq_refl ltac:(lia) Hb' ltac:(destruct w; reflexivity)).
    destruct (embedding_loop _ _ _ _ _) as [r w']. destruct IH as [Hr Hl].
    split; [exact Hr|]. rewrite Hl. destruct w; simpl. rewrite <- !app_assoc. reflexivity.
Qed.

End MismatchFacts.

(** ** C4 (dimension check, corrected): the dimension check sits inside
    the retried [try] block, so a returned embedding whose length is not
    1536 is handled exactly like a failed provider call, on any attempt:
    - replacing such an answer, wherever it comes among the provider's
      answers, by a provider error carrying the check's message changes
      neither the result nor the calls made;
    - after [k < max_retries] wrong-length answers, a 1536-long embedding
      is returned, each wrong answer being followed by a 1-second sleep
      and a new call;
    - when all [max_retries] answers have the wrong length, the check's
      error of the last one is raised, after the last call. *)
Theorem C4_dimension_mismatch_is_retried (text : string) (n : nat) (w : world)
  (bad : list (list Z)) (v : list Z) (rest : list emb_resp)
  (Hbad : Forall (fun u => length u <> 1536%nat) bad) (Hv : length v = 1536%nat) :
  (forall es1 es2 u, length u <> 1536%nat ->
     let '(r1, w1) := generate_embedding text n (set_emb w (es1 ++ EmbVec u :: es2)%list) in
     let '(r2, w2) := generate_embedding text n
          (set_emb w (es1 ++ EmbFail ("Expected 1536-dimensional embedding, got "
                                       ++ str_nat (length u)) :: es2)%list) in
     r1 = r2 /\ w_log w1 = w_log w2 /\ w_items w1 = w_items w2) /\
  ((length bad < n)%nat ->
     let '(r, w') := generate_embedding text n (set_emb w (map EmbVec bad ++ EmbVec v :: rest)%list) in
     r = Ok (Some v) /\ w_log w' = (w_log w ++ retry_log text (S (length bad)))%list) /\
  (length bad = n -> (1 <= n)%nat ->
     let '(r, w') := generate_embedding text n (set_emb w (map EmbVec bad ++ rest)%list) in
     r = Exn ("Expected 1536-dimensional embedding, got " ++ str_nat (length (last bad []))) /\
     w_log w' = (w_log w ++ retry_log text n)%list).
Proof.
  split; [|split].
  - intros es1 es2 u Hu. unfold generate_embedding.
    assert (Hs : same_but_emb (set_emb w (es1 ++ EmbVec u :: es2)%list)
                   (set_emb w (es1 ++ EmbFail ("Expected 1536-dimensional embedding, got "
                                                ++ str_nat (length u)) :: es2)%list)).
    { split; [destruct w; reflexivity|]. simpl.
      apply Forall2_app; [apply MismatchFacts.equiv_refl|].
      constructor; [|apply MismatchFacts.equiv_refl].
      split; [now rewrite MismatchFacts.mismatch_failure|].
      rewrite MismatchFacts.mismatch_failure by exact Hu. discriminate. }
    pose proof (MismatchFacts.sbe_loop text n n 0 _ _ Hs) as Hl.
    destruct (embedding_loop text n 0 n (set_emb w _)) as [o1 w1].
    destruct (embedding_loop text n 0 n (set_emb w _)) as [o2 w2].
    destruct Hl as [Ho Hw]. split; [exact Ho|]. exact (MismatchFacts.sbe_log_items _ _ Hw).
  - intros Hlt. unfold generate_embedding.
    pose proof (MismatchFacts.recover text n v rest Hv bad 0 n
                  (set_emb w (map EmbVec bad ++ EmbVec v :: rest)%list)
                  eq_refl Hlt Hbad ltac:(destruct w; reflexivity)) as H.
    destruct (embedding_loop _ _ _ _ _) as [r w']. destruct H as [Hr Hl].
    split; [exact Hr|]. rewrite Hl. destruct w; reflexivity.
  - intros Hlen H1. unfold generate_embedding.
    pose proof (MismatchFacts.exhaust text n rest bad 0 n
                  (set_emb w (map EmbVec bad ++ rest)%list)
                  eq_refl Hlen H1 Hbad ltac:(destruct w; reflexivity)) as H.
    destruct (embedding_loop _ _ _ _ _) as [r w']. destruct H as [Hr Hl].
    split; [exact Hr|]. rewrite Hl. destruct w; reflexivity.
Qed.

(** ** C5 (data-entry confirmation, corrected): when a data-entry message
    parses and the insert returns its row, the row with the parsed fields
    is appended to the store, but the reply is the fixed text ["Stored!"]:
    it does not echo the stored category, subcategory or name. *)
Theorem C5_confirmation_is_fixed_text (from_number body_text : string) (w : world)
  (e : entry)
  (Hf : Py.truthy from_number = true) (Hb : Py.truthy body_text = true)
  (Hd : is_data_entry_format body_text = true)
  (Hp : parse_entry body_text = inr (Some e))
  (Hup : w_db_error w = None) (Hins : w_insert_data w = true) :
  let '(r, w') := receive_sms (Some from_number) (Some body_text) w in
  r = Ok (mk_response "Stored!" 200) /\
  w_items w' = (w_items w ++ [mk_item (w_next_id w) from_number (e_category e)
                                (e_subcategory e) (e_name e) None (w_now w)])%list.
Proof.
  unfold receive_sms. rewrite Hf, Hb, Hd. simpl.
  unfold store_data_entry. rewrite Hp.
  destruct w; simpl in Hup, Hins; subst.
  unfold bind, get_world, try_except, db_insert, db_guard, emit, ret. simpl. auto.
Qed.

Module RemoveFacts.

(** The movie handler looks before it deletes. *)
Lemma movie_remove_named body_text user_id w a :
  Py.contains "list movies" (Py.lower body_text) = false ->
  Py.after_first "remove movie" (Py.lower body_text) = Some a ->
  Py.truthy (Py.strip a) = true ->
  like_valid (Py.strip a) = true ->
  w_db_error w = None ->
  let r := Py.strip a in
  let q := [Eq CCategory "movie"; ILike CName r] in
  let '(reply, w') := handle_movie_request body_text user_id w in
  if existsb (matches q) (w_items w) then
    reply = Ok ("Removed movie: " ++ r) /\
    w_items w' = filter (fun it => negb (matches q it)) (w_items w) /\
    w_log w' = (w_log w ++ [ESelect; EDelete])%list
  else
    reply = Ok ("No movie found matching: " ++ r) /\
    w_items w' = w_items w /\
    w_log w' = (w_log w ++ [ESelect])%list.
Proof.
  intros Hl Ha Ht Hv Hup r q. subst r q.
  unfold handle_movie_request. rewrite Hl, (Eff.after_first_contains _ _ _ Ha), Ha.
  cbv zeta. rewrite Ht. change (negb true) with false. cbv iota.
  unfold bind at 1. rewrite Eff.db_select_ok; [|exact Hup|simpl; now rewrite Hv].
  set (q := [Eq CCategory "movie"; ILike CName (Py.strip a)]).
  destruct (existsb (matches q) (w_items w)) eqn:Hex.
  - destruct (Eff.existsb_filter_cons _ _ Hex) as (x & l' & ->).
    unfold bind at 1. rewrite Eff.db_delete_ok; [|destruct w; exact Hup|simpl; now rewrite Hv].
    destruct w; simpl. rewrite <- app_assoc. auto.
  - rewrite (Eff.filter_nil_existsb _ _ Hex).
    destruct w; simpl. auto.
Qed.

(** The other three handlers delete by exact name without looking. *)
Lemma grocery_remove_named body_text user_id w a :
  Py.contains "list" (Py.lower body_text) = false ->
  Py.after_first "remove grocery" (Py.lower body_text) = Some a ->
  Py.truthy (Py.strip a) = true ->
  w_db_error w = None ->
  let r := Py.strip a in
  let q := [Eq CCategory "Grocery"; Eq CName r] in
  let '(reply, w') := handle_grocery_request body_text user_id w in
  reply = Ok ("Removed grocery item: " ++ r) /\
  w_items w' = filter (fun it => negb (matches q it)) (w_items w) /\
  w_log w' = (w_log w ++ [EDelete])%list.
Proof.
  intros Hl Ha Ht Hup r q. subst r q.
  unfold handle_grocery_request. rewrite Hl, (Eff.after_first_contains _ _ _ Ha), Ha.
  cbv zeta. rewrite Ht. change (negb true) with false. cbv iota.
  unfold bind at 1. rewrite Eff.db_delete_ok; [|exact Hup|reflexivity].
  destruct w; simpl. auto.
Qed.

Lemma tv_remove_named body_text user_id w a :
  Py.contains "list tv" (Py.lower body_text) = false ->
  Py.after_first "remove tv" (Py.lower body_text) = Some a ->
  Py.truthy (Py.strip a) = true ->
  w_db_error w = None ->
  let r := Py.strip a in
  let q := [Eq CCategory "tv"; Eq CName r] in
  let '(reply, w') := handle_tv_request body_text user_id w in
  reply = Ok ("Removed TV item: " ++ r) /\
  w_items w' = filter (fun it => negb (matches q it)) (w_items w) /\
  w_log w' = (w_log w ++ [EDelete])%list.
Proof.
  intros Hl Ha Ht Hup r q. subst r q.
  assert (Hl2 : Py.contains "list tv shows" (Py.lower body_text) = false).
  { destruct (Py.contains "list tv shows" (Py.lower body_text)) eqn:E; [|reflexivity].
    change "list tv shows" with ("list tv" ++ " shows") in E.
    apply Eff.contains_app in E. congruence. }
  unfold handle_tv_request. rewrite Hl, Hl2, (Eff.after_first_contains _ _ _ Ha), Ha.
  cbv zeta. rewrite Ht. change (negb true) with false. change (false || false) with false.
  cbv iota.
  unfold bind at 1. rewrite Eff.db_delete_ok; [|exact Hup|reflexivity].
  destruct w; simpl. auto.
Qed.

Lemma restaurant_remove_named body_text user_id w a :
  Py.contains "list" (Py.lower body_text) = false ->
  Py.after_first "remove restaurant" (Py.lower body_text) = Some a ->
  Py.truthy (Py.strip a) = true ->
  w_db_error w = None ->
  let r := Py.strip a in
  let q := [Eq CCategory "restaurant"; Eq CName r] in
  let '(reply, w') := handle_restaurant_request body_text user_id w in
  reply = Ok ("Removed restaurant item: " ++ r) /\
  w_items w' = filter (fun it => negb (matches q it)) (w_items w) /\
  w_log w' = (w_log w ++ [EDelete])%list.
Proof.
  intros Hl Ha Ht Hup r q. subst r q.
  unfold handle_restaurant_request. rewrite Hl, (Eff.after_first_contains _ _ _ Ha), Ha.
  cbv zeta. rewrite Ht. change (negb true) with false. cbv iota.
  unfold bind at 1. rewrite Eff.db_delete_ok; [|exact Hup|reflexivity].
  destruct w; simpl. auto.
Qed.

End RemoveFacts.

(** ** C1 (remove with a name, counterexample): on a store whose only tv
    row is [the office], ["remove tv lost"] matches no row, yet the tv
    handler issues a delete call and reports that [lost] was removed. *)
Lemma C1_tv_remove_unchecked :
  let w := world_of [mk_item 1 "+15550001" "tv" None "the office" None "t"] [] in
  let '(reply, w') := handle_tv_request "remove tv lost" "+15550001" w in
  existsb (fun it => String.eqb (Py.lower (i_name it)) "lost") (w_items w) = false /\
  reply = Ok "Removed TV item: lost" /\
  w_log w' = [EDelete] /\
  w_items w' = w_items w.
Proof. vm_compute. auto. Qed.

(** ** C1 (remove with a name, as the code does it): only the movie
    handler looks before deleting: for ["remove movie <r>"] with a
    non-empty remainder it selects the movie rows whose name ILIKE-matches
    [r]; if there are some it deletes exactly them and replies
    ["Removed movie: <r>"], otherwise it replies
    ["No movie found matching: <r>"] with no delete call. The grocery, tv
    and restaurant handlers issue one delete call without looking first
    and always reply that [r] was removed; for tv and restaurant that
    delete removes exactly the rows of the category with [name = r]
    (exact, case-sensitive equality). *)
Theorem C1_remove_named_as_coded :
  (forall body_text user_id w a,
     Py.contains "list movies" (Py.lower body_text) = false ->
     Py.after_first "remove movie" (Py.lower body_text) = Some a ->
     Py.truthy (Py.strip a) = true -> like_valid (Py.strip a) = true ->
     w_db_error w = None ->
     let r := Py.strip a in
     let q := [Eq CCategory "movie"; ILike CName r] in
     let '(reply, w') := handle_movie_request body_text user_id w in
     if existsb (matches q) (w_items w) then
       reply = Ok ("Removed movie: " ++ r) /\
       w_items w' = filter (fun it => negb (matches q it)) (w_items w) /\
       w_log w' = (w_log w ++ [ESelect; EDelete])%list
     else
       reply = Ok ("No movie found matching: " ++ r) /\
       w_items w' = w_items w /\ w_log w' = (w_log w ++ [ESelect])%list) /\
  (forall body_text user_id w a,
     Py.contains "list" (Py.lower body_text) = false ->
     Py.after_first "remove grocery" (Py.lower body_text) = Some a ->
     Py.truthy (Py.strip a) = true -> w_db_error w = None ->
     let r := Py.strip a in
     let '(reply, w') := handle_grocery_request body_text user_id w in
     reply = Ok ("Removed grocery item: " ++ r) /\
     w_log w' = (w_log w ++ [EDelete])%list) /\
  (forall body_text user_id w a,
     Py.contains "list tv" (Py.lower body_text) = false ->
     Py.after_first "remove tv" (Py.lower body_text) = Some a ->
     Py.truthy (Py.strip a) = true -> w_db_error w = None ->
     let r := Py.strip a in
     let q := [Eq CCategory "tv"; Eq CName r] in
     let '(reply, w') := handle_tv_request body_text user_id w in
     reply = Ok ("Removed TV item: " ++ r) /\
     w_items w' = filter (fun it => negb (matches q it)) (w_items w) /\
     w_log w' = (w_log w ++ [EDelete])%list) /\
  (forall body_text user_id w a,
     Py.contains "list" (Py.lower body_text) = false ->
     Py.after_first "remove restaurant" (Py.lower body_text) = Some a ->
     Py.truthy (Py.strip a) = true -> w_db_error w = None ->
     let r := Py.strip a in
     let q := [Eq CCategory "restaurant"; Eq CName r] in
     let '(reply, w') := handle_restaurant_request body_text user_id w in
     reply = Ok ("Removed restaurant item: " ++ r) /\
     w_items w' = filter (fun it => negb (matches q it)) (w_items w) /\
     w_log w' = (w_log w ++ [EDelete])%list).
Proof.
  split; [exact RemoveFacts.movie_remove_named|].
  split.
  { intros body_text user_id w a H1 H2 H3 H4.
    pose proof (RemoveFacts.grocery_remove_named body_text user_id w a H1 H2 H3 H4) as H.
    cbv zeta in *. destruct (handle_grocery_request body_text user_id w). tauto. }
  split; [exact RemoveFacts.tv_remove_named|].
  exact RemoveFacts.restaurant_remove_named.
Qed.

(** ** C2 (insert then list, code defect): a grocery entry stored through
    the webhook is written with category ["grocery"], but the grocery
    list queries category ["Grocery"]: after ["Grocery\nBananas"] on an
    empty store, ["list grocery"] answers that there are no grocery items
    although the [bananas] row is stored. *)
Lemma C2_grocery_list_misses_stored_entry :
  let w0 := world_of [] [] in
  let '(r1, w1) := receive_sms (Some "+15550001") (Some ("Grocery" ++ nl ++ "Bananas")) w0 in
  let '(r2, w2) := receive_sms (Some "+15550001") (Some "list grocery") w1 in
  r1 = Ok (mk_response "Stored!" 200) /\
  map i_category (w_items w2) = ["grocery"] /\
  map i_name (w_items w2) = ["bananas"] /\
  r2 = Ok (mk_response "No grocery items found for anyone." 200).
Proof. vm_compute. auto. Qed.

(** ** C3 (dispatch, counterexample): ["list movies"] mentions the known
    category keyword [movie], yet the dispatcher answers with the generic
    help and touches nothing. *)
Lemma C3_movie_keyword_not_routed :
  Py.contains "movie" (Py.lower "list movies") = true /\
  handle_request "+15550001" "list movies" (world_of [] []) =
    (Ok generic_help, world_of [] []).
Proof. split; reflexivity. Qed.

(** ** C3 (dispatch, as the code does it): the dispatcher routes a
    command to the grocery handler exactly when the lowercased body
    contains ["grocery"]; every other command, whatever category keyword
    it mentions, gets the generic help with no store or provider call. *)
Theorem C3_dispatch_grocery_only (from_number body_text : string) (w : world) :
  handle_request from_number body_text w =
  if Py.contains "grocery" (Py.lower body_text)
  then handle_grocery_request body_text from_number w
  else (Ok generic_help, w).
Proof.
  unfold handle_request. destruct (Py.contains "grocery" (Py.lower body_text)); reflexivity.
Qed.

(** ** C4 (dimension check, counterexample): a 1-component embedding
    followed by a 1536-component one yields the second after a sleep and
    a retry; the mismatch is not raised. *)
Lemma C4_mismatch_not_fatal :
  let w := world_of [] [EmbVec [0%Z]; EmbVec (repeat 0%Z 1536)] in
  let '(r, w') := generate_embedding "fancy dinner" 3 w in
  r = Ok (Some (repeat 0%Z 1536)) /\
  w_log w' = [EEmbed "fancy dinner"; ESleep 1; EEmbed "fancy dinner"].
Proof. vm_compute. auto. Qed.

(** ** C5 (data-entry confirmation, counterexample): the reply to
    ["Grocery, Produce\nBananas"] is ["Stored!"], which names neither the
    category nor the item. *)
Lemma C5_reply_does_not_echo :
  fst (receive_sms (Some "+15550001") (Some ("Grocery, Produce" ++ nl ++ "Bananas"))
                   (world_of [] [])) = Ok (mk_response "Stored!" 200) /\
  Py.contains "grocery" (Py.lower "Stored!") = false /\
  Py.contains "bananas" (Py.lower "Stored!") = false.
Proof. vm_compute. auto. Qed.

(** ** C6 (error boundary, code defect): a store failure during the
    grocery list is not caught anywhere on the path from [receive_sms]:
    the exception escapes the endpoint instead of becoming a reply. *)
Lemma C6_store_error_escapes_webhook :
  let w := mk_world [] 1 (Some "ConnectionError: connection refused") true []
                    (RpcRows []) (LlmText "") "t" [] in
  fst (receive_sms (Some "+15550001") (Some "list grocery") w) =
    Exn "ConnectionError: connection refused".
Proof. vm_compute. reflexivity. Qed.

(* ------------------------------------------------------------------ *)
(** ** Witnesses: the theorems above applied at concrete inputs *)

Lemma C1_witness :
  let w := world_of [mk_item 1 "+15550001" "movie" None "dune" None "t";
                     mk_item 2 "+15550001" "grocery" None "dune" None "t"] [] in
  let q := [Eq CCategory "movie"; ILike CName "dune"] in
  let '(reply, w') := handle_movie_request "Remove movie DUNE" "+15550001" w in
  if existsb (matches q) (w_items w) then
    reply = Ok ("Removed movie: " ++ "dune") /\
    w_items w' = filter (fun it => negb (matches q it)) (w_items w) /\
    w_log w' = (w_log w ++ [ESelect; EDelete])%list
  else
    reply = Ok ("No movie found matching: " ++ "dune") /\
    w_items w' = w_items w /\ w_log w' = (w_log w ++ [ESelect])%list.
Proof.
  intros w q.
  exact (proj1 C1_remove_named_as_coded "Remove movie DUNE" "+15550001" w " dune"
           eq_refl eq_refl eq_refl eq_refl eq_refl).
Defined.

Lemma C4_witness :
  let w := world_of [] [] in
  let bad := [[7%Z]; [1%Z; 2%Z]] in
  let v := repeat 0%Z 1536 in
  (forall es1 es2 u, length u <> 1536%nat ->
     let '(r1, w1) := generate_embedding "q" 3 (set_emb w (es1 ++ EmbVec u :: es2)%list) in
     let '(r2, w2) := generate_embedding "q" 3
          (set_emb w (es1 ++ EmbFail ("Expected 1536-dimensional embedding, got "
                                       ++ str_nat (length u)) :: es2)%list) in
     r1 = r2 /\ w_log w1 = w_log w2 /\ w_items w1 = w_items w2) /\
  ((length bad < 3)%nat ->
     let '(r, w') := generate_embedding "q" 3 (set_emb w (map EmbVec bad ++ EmbVec v :: [])%list) in
     r = Ok (Some v) /\ w_log w' = (w_log w ++ retry_log "q" (S (length bad)))%list) /\
  (length bad = 3%nat -> (1 <= 3)%nat ->
     let '(r, w') := generate_embedding "q" 3 (set_emb w (map EmbVec bad ++ [])%list) in
     r = Exn ("Expected 1536-dimensional embedding, got " ++ str_nat (length (last bad []))) /\
     w_log w' = (w_log w ++ retry_log "q" 3)%list).
Proof.
  intros w bad v.
  apply (C4_dimension_mismatch_is_retried "q" 3 w bad v []).
  - constructor; [simpl; lia|constructor; [simpl; lia|constructor]].
  - apply repeat_length.
Defined.

Lemma C5_witness :
  let '(r, w') := receive_sms (Some "+15550001") (Some ("Grocery, Produce" ++ nl ++ "Bananas"))
                              (world_of [] []) in
  r = Ok (mk_response "Stored!" 200) /\
  w_items w' = (w_items (world_of [] []) ++
                [mk_item 1 "+15550001" "grocery" (Some "produce") "bananas" None
                         (w_now (world_of [] []))])%list.
Proof.
  apply (C5_confirmation_is_fixed_text "+15550001" ("Grocery, Produce" ++ nl ++ "Bananas")
           (world_of [] []) (mk_entry "grocery" (Some "produce") "bananas"));
    vm_compute; reflexivity.
Defined.

Lemma C8_witness :
  parse_entry (" Movie ,  Sci-Fi " ++ nl ++ " Dune " ++ nl ++ "extra") =
  inr (entry_parser_spec (" Movie ,  Sci-Fi " ++ nl ++ " Dune " ++ nl ++ "extra")).
Proof.
  apply (proj1 C8_entry_parser_matches_spec). vm_compute. reflexivity.
Defined.

Lemma C9_witness :
  let w := world_of [] [EmbFail "RateLimitError"; EmbVec [1%Z]; EmbFail "Timeout"] in
  let '(reply, w') := handle_restaurant_request "Recommend a quiet place" "+15550001" w in
  reply = Ok ("Error generating embedding for query: " ++ "Timeout") /\
  w_log w' = (w_log w ++ [EEmbed "Recommend a quiet place"; ESleep 1;
                          EEmbed "Recommend a quiet place"; ESleep 1;
                          EEmbed "Recommend a quiet place"])%list /\
  w_items w' = w_items w.
Proof.
  apply (C9_embedding_failures_stop_flow "Recommend a quiet place" "+15550001"
           (world_of [] [EmbFail "RateLimitError"; EmbVec [1%Z]; EmbFail "Timeout"])
           (EmbFail "RateLimitError") (EmbVec [1%Z]) (EmbFail "Timeout") []
           "RateLimitError" "Expected 1536-dimensional embedding, got 1" "Timeout");
    vm_compute; reflexivity.
Defined.

Lemma C10_witness :
  let w := world_of [mk_item 1 "+15550001" "grocery" None "list" None "t"] [] in
  (let '(_, w') := handle_grocery_request "remove grocery list" "+15550001" w in
   w_items w' = w_items w /\ w_log w' = (w_log w ++ [ESelect])%list) /\
  (let '(_, w') := handle_restaurant_request "remove grocery list" "+15550001" w in
   w_items w' = w_items w /\ w_log w' = (w_log w ++ [ESelect])%list).
Proof.
  apply C10_list_check_wins. vm_compute. reflexivity.
Defined.

(* ================================================================== *)
(** * Further properties of the code *)

Module Shrink.

Lemma filter_filter {A} (f g : A -> bool) l :
  filter g (filter f l) = filter (fun x => f x && g x) l.
Proof.
  induction l as [|x l IH]; simpl; [reflexivity|].
  destruct (f x); simpl; [destruct (g x); simpl; now rewrite IH|exact IH].
Qed.

Lemma unchanged {A} (m : M A) :
  (forall w, w_items (snd (m w)) = w_items w) -> removes_only m.
Proof.
  intros H w. exists (fun _ => true). rewrite H. symmetry. apply forallb_filter_id.
  apply forallb_forall. reflexivity.
Qed.

Lemma ret_ro {A} (a : A) : removes_only (ret a).
Proof. apply unchanged. reflexivity. Qed.

Lemma raise_ro {A} e : removes_only (@raise A e).
Proof. apply unchanged. reflexivity. Qed.

Lemma bind_ro {A B} (m : M A) (k : A -> M B) :
  removes_only m -> (forall a, removes_only (k a)) -> removes_only (bind m k).
Proof.
  intros Hm Hk w. unfold bind. destruct (Hm w) as [f Hf].
  destruct (m w) as [[a|e] w'] eqn:E; simpl in *.
  - destruct (Hk a w') as [g Hg]. exists (fun x => f x && g x).
    rewrite Hg, Hf. apply filter_filter.
  - now exists f.
Qed.

Lemma try_ro {A} (m : M A) (h : string -> M A) :
  removes_only m -> (forall e, removes_only (h e)) -> removes_only (try_except m h).
Proof.
  intros Hm Hh w. unfold try_except. destruct (Hm w) as [f Hf].
  destruct (m w) as [[a|e] w'] eqn:E; simpl in *.
  - now exists f.
  - destruct (Hh e w') as [g Hg]. exists (fun x => f x && g x).
    rewrite Hg, Hf. apply filter_filter.
Qed.

Lemma emit_ro ev : removes_only (emit ev).
Proof. apply unchanged. intros []; reflexivity. Qed.

Lemma get_world_ro : removes_only get_world.
Proof. apply unchanged. reflexivity. Qed.

Lemma db_guard_ro ev : removes_only (db_guard ev).
Proof.
  unfold db_guard. apply bind_ro; [apply emit_ro|intros _].
  apply bind_ro; [apply get_world_ro|intros w].
  destruct (w_db_error w); [apply raise_ro|apply ret_ro].
Qed.

Lemma select_ro q : removes_only (db_select q).
Proof.
  unfold db_select. apply bind_ro; [apply db_guard_ro|intros _].
  destruct (forallb cond_valid q); [|apply raise_ro].
  apply unchanged. reflexivity.
Qed.

Lemma delete_ro q : removes_only (db_delete q).
Proof.
  unfold db_delete. apply bind_ro; [apply db_guard_ro|intros _].
  destruct (forallb cond_valid q); [|apply raise_ro].
  intros w. eexists. reflexivity.
Qed.

Lemma rpc_ro n : removes_only (db_rpc n).
Proof.
  unfold db_rpc. apply bind_ro; [apply emit_ro|intros _].
  apply unchanged. intros w. destruct (w_rpc w); reflexivity.
Qed.

Lemma embed_ro t : removes_only (embeddings_create t).
Proof.
  unfold embeddings_create. apply bind_ro; [apply emit_ro|intros _].
  apply unchanged. intros w. destruct (w_emb w) as [|[] ?]; reflexivity.
Qed.

Lemma chat_ro p n : removes_only (chat_create p n).
Proof.
  unfold chat_create. apply bind_ro; [apply emit_ro|intros _].
  apply unchanged. intros w. destruct (w_llm w); reflexivity.
Qed.

Ltac ro :=
  repeat first
    [ apply ret_ro | apply raise_ro | apply select_ro | apply delete_ro
    | apply rpc_ro | apply embed_ro | apply chat_ro | apply emit_ro
    | apply get_world_ro
    | apply bind_ro; [|intro]
    | apply try_ro; [|intro]
    | match goal with
      | |- removes_only (if ?b then _ else _) => destruct b
      | |- removes_only (match ?x with _ => _ end) => destruct x
      end ].

End Shrink.

(** ** X1: none of the command paths adds or modifies a row: after any
    grocery, movie, tv or restaurant handler call, and after any dispatcher
    call, the rows are the earlier rows with some removed, in their order,
    whatever the store and the providers answer. *)
Theorem X1_handlers_only_remove_rows (body_text user_id : string) :
  removes_only (handle_grocery_request body_text user_id) /\
  removes_only (handle_movie_request body_text user_id) /\
  removes_only (handle_tv_request body_text user_id) /\
  removes_only (handle_restaurant_request body_text user_id) /\
  removes_only (handle_request user_id body_text).
Proof.
  assert (Hg : removes_only (handle_grocery_request body_text user_id)).
  { unfold handle_grocery_request. cbv zeta. Shrink.ro. }
  split; [exact Hg|]. split; [|split; [|split]].
  - unfold handle_movie_request. cbv zeta. Shrink.ro.
  - unfold handle_tv_request. cbv zeta. Shrink.ro.
  - unfold handle_restaurant_request. cbv zeta. Shrink.ro.
  - unfold handle_request. cbv zeta. destruct (Py.contains _ _); [|apply Shrink.ret_ro].
    unfold handle_grocery_request. cbv zeta. Shrink.ro.
Qed.

(** ** X2: every response the webhook produces has HTTP status 200, for
    any form fields, store and providers (errors only change the text). *)
Theorem X2_webhook_replies_200 (from_field body_field : option string) (w w' : world)
  (r : response) :
  receive_sms from_field body_field w = (Ok r, w') -> r_status r = 200%nat.
Proof.
  unfold receive_sms.
  destruct from_field as [f|], body_field as [b|];
    try (intros H; inversion H; reflexivity).
  destruct (Py.truthy f && Py.truthy b); [|intros H; inversion H; reflexivity].
  destruct (is_data_entry_format b).
  - unfold store_data_entry.
    destruct (parse_entry b) as [e|[e|]]; [discriminate| |intros H; inversion H; reflexivity].
    unfold bind, get_world, try_except.
    destruct (db_insert _ w) as [[[|? ?]|m] w1];
      intros H; inversion H; reflexivity.
  - unfold bind at 1. destruct (handle_request f b w) as [[a|e] w1];
      intros H; inversion H; reflexivity.
Qed.

(** ** X3: a missing or empty [From] or [Body] field gets the structural
    error reply, before any store or provider call. *)
Theorem X3_missing_fields_rejected (from_field body_field : option string) (w : world)
  (Hmiss : from_field = None \/ body_field = None \/
           from_field = Some EmptyString \/ body_field = Some EmptyString) :
  receive_sms from_field body_field w =
    (Ok (mk_response "Error: Missing phone number or message body." 200), w).
Proof.
  unfold receive_sms.
  destruct from_field as [[|c f]|], body_field as [[|d b]|]; try reflexivity.
  destruct Hmiss as [H|[H|[H|H]]]; discriminate.
Qed.

Module EntryFacts.

Lemma data_entry_parses b :
  is_data_entry_format b = true -> exists r, parse_entry b = inr r.
Proof.
  unfold is_data_entry_format, parse_entry. intros H.
  destruct (Py.split_char newline (Py.strip b)) as [|l1 [|l2 rest]]; simpl in H;
    try discriminate.
  destruct (Py.split_char_once comma (Py.strip l1)) as [[? ?]|]; cbv zeta;
    match goal with |- exists _, (if ?c then _ else _) = _ => destruct c end; eauto.
Qed.

Lemma lower_char_idem c : Py.lower_char (Py.lower_char c) = Py.lower_char c.
Proof. destruct c as [[] [] [] [] [] [] [] []]; reflexivity. Qed.

Lemma lower_idem s : Py.lower (Py.lower s) = Py.lower s.
Proof. induction s as [|c s IH]; simpl; [reflexivity|]. now rewrite lower_char_idem, IH. Qed.

End EntryFacts.

(** ** X4: the data-entry path of the webhook never raises: for every
    data-entry message it replies, and it never removes rows; the store
    either is unchanged or has gained exactly one row at the end. *)
Theorem X4_data_entry_path_total (from_number body_text : string) (w : world)
  (Hf : Py.truthy from_number = true) (Hd : is_data_entry_format body_text = true) :
  let '(r, w') := receive_sms (Some from_number) (Some body_text) w in
  (exists resp, r = Ok resp) /\
  (w_items w' = w_items w \/ exists it, w_items w' = (w_items w ++ [it])%list).
Proof.
  assert (Hb : Py.truthy body_text = true).
  { destruct body_text; [discriminate|reflexivity]. }
  unfold receive_sms. rewrite Hf, Hb, Hd. simpl.
  unfold store_data_entry.
  destruct (EntryFacts.data_entry_parses _ Hd) as [[e|] ->].
  - unfold bind, get_world, try_except.
    destruct w as [its nid [m|] ins emb rpc llm now log];
      unfold db_insert, db_guard, bind, emit, get_world, ret, raise; simpl.
    + split; eauto.
    + destruct ins; simpl; split; eauto.
  - split; eauto.
Qed.

(** ** X5: when the store fails on the insert of a data entry, the error
    is caught and becomes the reply ["Unexpected error: <e>"]; when the
    insert returns no data the reply is ["Database error: No data
    returned"]. In both cases no row is added. *)
Theorem X5_insert_failures_replied (from_number body_text : string) (w : world)
  (e : entry)
  (Hf : Py.truthy from_number = true) (Hd : is_data_entry_format body_text = true)
  (Hp : parse_entry body_text = inr (Some e)) :
  let '(r, w') := receive_sms (Some from_number) (Some body_text) w in
  match w_db_error w with
  | Some err => r = Ok (mk_response ("Unexpected error: " ++ err) 200) /\
                w_items w' = w_items w
  | None => w_insert_data w = false ->
            r = Ok (mk_response "Database error: No data returned" 200) /\
            w_items w' = w_items w
  end.
Proof.
  assert (Hb : Py.truthy body_text = true).
  { destruct body_text; [discriminate|reflexivity]. }
  unfold receive_sms. rewrite Hf, Hb, Hd. simpl.
  unfold store_data_entry. rewrite Hp.
  destruct w as [its nid [m|] [] emb rpc llm now log];
    unfold bind, get_world, try_except, db_insert, db_guard, emit, ret, raise; simpl;
    auto; discriminate.
Qed.

(** ** X6: every entry the parser produces is normalised: category and
    name are non-empty and lowercase, and the subcategory is either absent
    or a non-empty lowercase string. *)
Theorem X6_parsed_entry_normalised (body_text : string) (e : entry)
  (Hp : parse_entry body_text = inr (Some e)) :
  e_category e <> EmptyString /\ Py.lower (e_category e) = e_category e /\
  e_name e <> EmptyString /\ Py.lower (e_name e) = e_name e /\
  (forall subcat, e_subcategory e = Some subcat ->
     subcat <> EmptyString /\ Py.lower subcat = subcat).
Proof.
  unfold parse_entry in Hp.
  destruct (Py.split_char newline (Py.strip body_text)) as [|l1 [|l2 rest]];
    try discriminate.
  destruct (Py.split_char_once comma (Py.strip l1)) as [[p0 p1]|];
    cbv zeta in Hp.
  - destruct (Py.truthy (Py.lower (Py.strip p0))) eqn:Hc,
             (Py.truthy (Py.lower (Py.strip (Py.strip l2)))) eqn:Hn;
      simpl in Hp; try discriminate.
    inversion Hp; subst; simpl. rewrite !EntryFacts.lower_idem.
    split; [|split; [|split; [|split]]];
      try (intros Habs; rewrite Habs in *; discriminate); try reflexivity.
    intros subcat Hsub.
    destruct (Py.truthy (Py.lower (Py.strip p1))) eqn:Hs; inversion Hsub; subst.
    split; [|apply EntryFacts.lower_idem].
    intros Habs. rewrite Habs in Hs. discriminate.
  - destruct (Py.truthy (Py.lower (Py.strip l1))) eqn:Hc,
             (Py.truthy (Py.lower (Py.strip (Py.strip l2)))) eqn:Hn;
      simpl in Hp; try discriminate.
    inversion Hp; subst; simpl. rewrite !EntryFacts.lower_idem.
    split; [|split; [|split; [|split]]];
      try (intros Habs; rewrite Habs in *; discriminate); try reflexivity.
    intros subcat Hsub. discriminate.
Qed.

Module BulkFacts.

Definition not_cat (c : string) (it : item) : bool := negb (String.eqb (i_category it) c).

Lemma delete_cat_items c w :
  w_db_error w = None ->
  w_items (snd (db_delete [Eq CCategory c] w)) = filter (not_cat c) (w_items w) /\
  w_db_error (snd (db_delete [Eq CCategory c] w)) = None /\
  fst (db_delete [Eq CCategory c] w) = Ok tt.
Proof.
  intros Hup. rewrite Eff.db_delete_ok by (auto || reflexivity).
  destruct w; simpl in *; subst. repeat split.
  apply filter_ext. intros it. unfold not_cat, matches. simpl. now rewrite andb_true_r.
Qed.

Lemma filter_idem {A} (f : A -> bool) l : filter f (filter f l) = filter f l.
Proof. rewrite Shrink.filter_filter. apply filter_ext. intros x. now destruct (f x). Qed.

(** Running a handler that (on this body) is [db_delete [Eq CCategory c];;;
    ret msg] twice. *)
Lemma twice (h : M string) c msg w :
  (forall w, h w = (db_delete [Eq CCategory c];;; ret msg) w) ->
  w_db_error w = None ->
  let '(r1, w1) := h w in
  let '(r2, w2) := h w1 in
  r1 = Ok msg /\ r2 = r1 /\
  w_items w1 = filter (not_cat c) (w_items w) /\ w_items w2 = w_items w1.
Proof.
  intros Hh Hup. rewrite Hh. unfold bind.
  destruct (delete_cat_items c w Hup) as (Hi & He & Ho).
  destruct (db_delete [Eq CCategory c] w) as [o w1] eqn:E. simpl in *. subst o.
  unfold ret. rewrite Hh. unfold bind.
  destruct (delete_cat_items c w1 He) as (Hi2 & _ & Ho2).
  destruct (db_delete [Eq CCategory c] w1) as [o2 w2]. simpl in *. subst o2.
  repeat split; auto. rewrite Hi2, Hi. apply filter_idem.
Qed.

End BulkFacts.

(** ** X7: ["remove tv"], ["remove movie"] and ["remove restaurant"] with
    nothing after the phrase delete every row of that category (of all
    users) and keep all other rows; sending the same message again is
    harmless: it reports the same success and changes no row. *)
Theorem X7_bulk_remove_idempotent :
  (forall body_text user_id w a,
     Py.contains "list tv" (Py.lower body_text) = false ->
     Py.after_first "remove tv" (Py.lower body_text) = Some a ->
     Py.truthy (Py.strip a) = false -> w_db_error w = None ->
     let '(r1, w1) := handle_tv_request body_text user_id w in
     let '(r2, w2) := handle_tv_request body_text user_id w1 in
     r1 = Ok "All TV items removed!" /\ r2 = r1 /\
     w_items w1 = filter (fun it => negb (String.eqb (i_category it) "tv")) (w_items w) /\
     w_items w2 = w_items w1) /\
  (forall body_text user_id w a,
     Py.contains "list movies" (Py.lower body_text) = false ->
     Py.after_first "remove movie" (Py.lower body_text) = Some a ->
     Py.truthy (Py.strip a) = false -> w_db_error w = None ->
     let '(r1, w1) := handle_movie_request body_text user_id w in
     let '(r2, w2) := handle_movie_request body_text user_id w1 in
     r1 = Ok "All movies removed!" /\ r2 = r1 /\
     w_items w1 = filter (fun it => negb (String.eqb (i_category it) "movie")) (w_items w) /\
     w_items w2 = w_items w1) /\
  (forall body_text user_id w a,
     Py.contains "list" (Py.lower body_text) = false ->
     Py.after_first "remove restaurant" (Py.lower body_text) = Some a ->
     Py.truthy (Py.strip a) = false -> w_db_error w = None ->
     let '(r1, w1) := handle_restaurant_request body_text user_id w in
     let '(r2, w2) := handle_restaurant_request body_text user_id w1 in
     r1 = Ok "All restaurant items removed!" /\ r2 = r1 /\
     w_items w1 = filter (fun it => negb (String.eqb (i_category it) "restaurant"))
                         (w_items w) /\
     w_items w2 = w_items w1).
Proof.
  split; [|split]; intros body_text user_id w a Hl Ha Ht Hup.
  - assert (Hl2 : Py.contains "list tv shows" (Py.lower body_text) = false).
    { destruct (Py.contains "list tv shows" (Py.lower body_text)) eqn:E; [|reflexivity].
      change "list tv shows" with ("list tv" ++ " shows") in E.
      apply Eff.contains_app in E. congruence. }
    apply (BulkFacts.twice _ "tv"); [|exact Hup]. intros w0.
    unfold handle_tv_request. rewrite Hl, Hl2, (Eff.after_first_contains _ _ _ Ha), Ha.
    cbv zeta. rewrite Ht. reflexivity.
  - apply (BulkFacts.twice _ "movie"); [|exact Hup]. intros w0.
    unfold handle_movie_request. rewrite Hl, (Eff.after_first_contains _ _ _ Ha), Ha.
    cbv zeta. rewrite Ht. reflexivity.
  - apply (BulkFacts.twice _ "restaurant"); [|exact Hup]. intros w0.
    unfold handle_restaurant_request. rewrite Hl, (Eff.after_first_contains _ _ _ Ha), Ha.
    cbv zeta. rewrite Ht. reflexivity.
Qed.

(** ** X8: ["remove grocery"] with nothing after it deletes exactly the
    rows whose category is ["Grocery"] (of all users) and keeps every other
    row, in order; in particular every row whose category is lowercase (as
    every row written by the entry parser is) survives, while the reply
    says that all grocery items were removed. *)
Theorem X8_grocery_bulk_remove_keeps_lowercase (body_text user_id : string) (w : world)
  (a : string)
  (Hl : Py.contains "list" (Py.lower body_text) = false)
  (Ha : Py.after_first "remove grocery" (Py.lower body_text) = Some a)
  (Ht : Py.truthy (Py.strip a) = false) (Hup : w_db_error w = None) :
  let '(r, w') := handle_grocery_request body_text user_id w in
  r = Ok "All grocery items removed for all users!" /\
  w_items w' = filter (fun it => negb (String.eqb (i_category it) "Grocery")) (w_items w) /\
  (forall it, In it (w_items w) -> Py.lower (i_category it) = i_category it ->
              In it (w_items w')).
Proof.
  unfold handle_grocery_request. rewrite Hl, (Eff.after_first_contains _ _ _ Ha), Ha.
  cbv zeta. rewrite Ht. change (negb false) with true. cbv iota.
  unfold bind at 1.
  destruct (BulkFacts.delete_cat_items "Grocery" w Hup) as (Hi & _ & Ho).
  destruct (db_delete [Eq CCategory "Grocery"] w) as [o w1]. simpl in *. subst o.
  split; [reflexivity|]. split; [exact Hi|].
  intros it Hin Hlow. rewrite Hi. apply filter_In. split; [exact Hin|].
  unfold BulkFacts.not_cat. destruct (String.eqb_spec (i_category it) "Grocery") as [Heq|];
    [|reflexivity].
  rewrite Heq in Hlow. discriminate.
Qed.

Module RetryFacts.

Lemma attempt_shape text w :
  let '(r, w1) := embedding_attempt text w in
  w_items w1 = w_items w /\ w_log w1 = (w_log w ++ [EEmbed text])%list /\
  (forall v, r = Ok v -> length v = 1536%nat).
Proof.
  destruct w as [its nid dberr ins emb rpc llm now log].
  unfold embedding_attempt, embeddings_create, bind, emit, ret, raise. simpl.
  destruct emb as [|[v|e] rest]; simpl.
  - repeat split; intros; discriminate.
  - destruct (length v =? 1536)%nat eqn:E; simpl.
    + repeat split. intros v' Hv. inversion Hv; subst. now apply Nat.eqb_eq.
    + repeat split; intros; discriminate.
  - repeat split; intros; discriminate.
Qed.

Lemma loop_shape text fuel : forall a n w,
  (a + fuel = n)%nat -> (1 <= fuel)%nat ->
  let '(r, w') := embedding_loop text n a fuel w in
  exists k, (1 <= k <= fuel)%nat /\
    w_log w' = (w_log w ++ retry_log text k)%list /\
    w_items w' = w_items w /\
    (forall e, r = Exn e -> k = fuel) /\
    r <> Ok None /\
    (forall v, r = Ok (Some v) -> length v = 1536%nat).
Proof.
  induction fuel as [|f IH]; intros a n w Hn H1; [lia|].
  simpl. unfold try_except, bind at 1.
  pose proof (attempt_shape text w) as Hs.
  destruct (embedding_attempt text w) as [[v|e] w1]; destruct Hs as (Hi & Hl & Hv).
  - unfold ret. exists 1%nat. repeat split; auto; try lia; try discriminate.
    intros v' Hv'. inversion Hv'; subst. now apply Hv.
  - destruct (a =? n - 1)%nat eqn:Ea.
    + apply Nat.eqb_eq in Ea. unfold raise. exists 1%nat.
      repeat split; auto; try lia; try discriminate.
    + apply Nat.eqb_neq in Ea. assert (Hf : (1 <= f)%nat) by lia.
      unfold sleep, emit, bind.
      specialize (IH (S a) n (add_event w1 (ESleep 1)) ltac:(lia) Hf).
      destruct (embedding_loop text n (S a) f (add_event w1 (ESleep 1))) as [r w'].
      destruct IH as (k & Hk & Hlog & Hit & Hexn & Hnone & Hlen).
      exists (S k). repeat split; auto; try lia.
      * rewrite Hlog. destruct w1; simpl in *. rewrite Hl.
        destruct k as [|k]; [lia|]. simpl. now rewrite <- !app_assoc.
      * rewrite Hit. destruct w1; simpl in *. exact Hi.
      * intros e' He'. specialize (Hexn e' He'). lia.
Qed.

End RetryFacts.

(** ** X9: [generate_embedding text n] with [n >= 1] makes between 1 and
    [n] provider calls, sleeping one second between two of them; it
    raises only after the [n]-th call; it never returns [None]; a vector
    it returns has 1536 components; and it touches no row. *)
Theorem X9_embedding_retry_bounds (text : string) (n : nat) (w : world)
  (Hn : (1 <= n)%nat) :
  let '(r, w') := generate_embedding text n w in
  exists k, (1 <= k <= n)%nat /\
    w_log w' = (w_log w ++ retry_log text k)%list /\
    w_items w' = w_items w /\
    (forall e, r = Exn e -> k = n) /\
    r <> Ok None /\
    (forall v, r = Ok (Some v) -> length v = 1536%nat).
Proof.
  unfold generate_embedding. apply RetryFacts.loop_shape; lia.
Qed.

Module FrameFacts.

Lemma attempt_frame text w :
  exists es log, snd (embedding_attempt text w) =
    mk_world (w_items w) (w_next_id w) (w_db_error w) (w_insert_data w) es
             (w_rpc w) (w_llm w) (w_now w) log.
Proof.
  rewrite MismatchFacts.attempt_formula.
  destruct w as [its nid dberr ins emb rpc llm now log]; simpl.
  destruct emb; simpl; eexists; eexists; reflexivity.
Qed.

(** The retry loop only consumes provider answers and logs calls. *)
Lemma loop_frame text n fuel : forall a w,
  exists es log, snd (embedding_loop text n a fuel w) =
    mk_world (w_items w) (w_next_id w) (w_db_error w) (w_insert_data w) es
             (w_rpc w) (w_llm w) (w_now w) log.
Proof.
  induction fuel as [|f IH]; intros a w.
  - exists (w_emb w), (w_log w). destruct w; reflexivity.
  - cbn [embedding_loop]. unfold try_except, bind at 1.
    destruct (attempt_frame text w) as (es & log & Hw).
    destruct (embedding_attempt text w) as [o w1]. simpl in Hw. subst w1.
    destruct o as [v|e]; [unfold ret; simpl; eauto|].
    destruct (a =? n - 1)%nat; [unfold raise; simpl; eauto|].
    unfold sleep, emit, bind.
    destruct (IH (S a) (add_event (mk_world (w_items w) (w_next_id w) (w_db_error w)
                                            (w_insert_data w) es (w_rpc w) (w_llm w)
                                            (w_now w) log) (ESleep 1)))
      as (es' & log' & H').
    rewrite H'. simpl. eauto.
Qed.

End FrameFacts.

(** ** X10: whenever the query embedding succeeds (on any attempt), the
    recommend flow never raises and touches no row. An RPC failure or an
    empty RPC answer is reported without calling the LLM. Otherwise the
    LLM is called once, with the prompt built from the query and the
    returned rows and at most 120 tokens, and the reply is its stripped
    answer or the LLM error. *)
Theorem X10_recommend_paths (body_text : string) (w w1 : world) (q : option (list Z))
  (Hgen : generate_embedding body_text 3 w = (Ok q, w1)) :
  let '(r, w') := restaurant_recommend body_text w in
  w_items w' = w_items w /\
  match w_rpc w with
  | RpcFail e =>
      r = Ok ("Error performing vector search: " ++ e) /\
      w_log w' = (w_log w1 ++ [ERpc 3])%list
  | RpcRows [] =>
      r = Ok "No relevant restaurants found via vector search." /\
      w_log w' = (w_log w1 ++ [ERpc 3])%list
  | RpcRows rows =>
      r = Ok (match w_llm w with
              | LlmText t => Py.strip t
              | LlmFail e => "Error calling LLM for final recommendation: " ++ e
              end) /\
      w_log w' = (w_log w1 ++ [ERpc 3; ELlm (build_prompt body_text rows) 120])%list
  end.
Proof.
  destruct (FrameFacts.loop_frame body_text 3 3 0 w) as (es & log & Hw1).
  unfold generate_embedding in Hgen. rewrite Hgen in Hw1. simpl in Hw1. subst w1.
  unfold restaurant_recommend. cbv zeta.
  unfold try_except at 1, bind at 1 2. unfold generate_embedding. rewrite Hgen.
  unfold ret at 1. cbv iota beta.
  destruct w as [its nid dberr ins emb rpc llm now log0]; simpl.
  unfold db_rpc, emit, bind, try_except, ret. simpl.
  destruct rpc as [rows|e]; simpl.
  - destruct rows as [|row rows]; simpl.
    + repeat split.
    + unfold chat_create, emit, bind. simpl.
      destruct llm as [t|e]; simpl; (split; [reflexivity|]); (split; [reflexivity|]);
        now rewrite <- app_assoc.
  - repeat split.
Qed.

(** ** X11: [/test-insert] never answers with status 400: when the
    database is down it fails with 500 and the database's message; when
    the insert returns no data the 400 raised inside the [try] is turned
    into a 500 whose detail is ["400: Supabase error: No data returned"];
    otherwise it returns ["success"] with exactly the one sample row it
    appended to the table. *)
Theorem X11_test_insert_outcomes (w : world) :
  let '(r, w') := test_insert w in
  match w_db_error w with
  | Some e => r = Ok (HttpException 500 e) /\ w_items w' = w_items w
  | None =>
      if w_insert_data w then
        exists it, r = Ok (HttpJson "success" [it]) /\
                   w_items w' = (w_items w ++ [it])%list /\
                   i_user_id it = "+1234567890" /\ i_category it = "testcategory" /\
                   i_name it = "Just a test item" /\ i_timestamp it = w_now w
      else
        r = Ok (HttpException 500 "400: Supabase error: No data returned") /\
        w_items w' = w_items w
  end.
Proof.
  destruct w as [its nid dberr ins emb rpc llm now log].
  unfold test_insert, try_except, get_world, bind, db_insert, db_guard, emit, ret, raise.
  simpl. destruct dberr as [e|]; simpl; [split; reflexivity|].
  destruct ins; simpl.
  - eexists. repeat split.
  - split; reflexivity.
Qed.

Module BackfillFacts.

Lemma loop_keeps text fuel : forall a n w,
  let '(_, w') := embedding_loop text n a fuel w in
  w_db_error w' = w_db_error w /\ w_items w' = w_items w.
Proof.
  induction fuel as [|f IH]; intros a n w; [split; reflexivity|].
  simpl. unfold try_except, bind at 1.
  assert (Ha : w_db_error (snd (embedding_attempt text w)) = w_db_error w /\
               w_items (snd (embedding_attempt text w)) = w_items w).
  { destruct w as [its nid dberr ins emb rpc llm now log].
    unfold embedding_attempt, embeddings_create, bind, emit, ret, raise. simpl.
    destruct emb as [|[v|e] rest]; simpl; [split; reflexivity| |split; reflexivity].
    destruct (length v =? 1536)%nat; split; reflexivity. }
  destruct (embedding_attempt text w) as [[v|e] w1]; simpl in Ha; destruct Ha as [He Hi].
  - unfold ret. split; assumption.
  - destruct (a =? n - 1)%nat; [unfold raise; split; assumption|].
    unfold sleep, emit, bind.
    specialize (IH (S a) n (add_event w1 (ESleep 1))).
    destruct (embedding_loop text n (S a) f (add_event w1 (ESleep 1))) as [r w'].
    destruct IH as [He' Hi']. rewrite He', Hi'. destruct w1; simpl in *. split; assumption.
Qed.

Lemma backfill_outs rows : forall w,
  let '(r, w') := backfill_rows rows w in
  w_items w' = w_items w /\ w_db_error w' = w_db_error w /\
  exists outs,
    Forall2 row_outcome_ok (filter (fun row => Py.truthy (text_to_embed row)) rows) outs /\
    r = Ok (writes_of outs, printed_of outs) /\
    (forall e, w_db_error w = Some e -> writes_of outs = []).
Proof.
  induction rows as [|row rows IH]; intros w.
  - simpl. unfold ret. split; [reflexivity|]. split; [reflexivity|].
    exists []. split; [constructor|]. split; [reflexivity|]. reflexivity.
  - simpl. destruct (Py.truthy (text_to_embed row)) eqn:Ht; simpl.
    2:{ exact (IH w). }
    unfold bind at 1, try_except at 1, bind at 1. unfold generate_embedding.
    pose proof (RetryFacts.loop_shape (text_to_embed row) 3 0 3 w eq_refl ltac:(lia)) as Hs.
    pose proof (loop_keeps (text_to_embed row) 3 0 3 w) as Hk.
    destruct (embedding_loop (text_to_embed row) 3 0 3 w) as [[vec|e] w1].
    + destruct Hk as [He1 Hi1].
      destruct Hs as (k & _ & _ & _ & _ & Hnone & Hlen).
      unfold ret at 1. cbv iota beta.
      unfold bind at 1. unfold try_except at 1. unfold bind at 1. unfold db_update_embedding.
      rewrite He1.
      destruct (w_db_error w) as [err|] eqn:Edb.
      * unfold ret at 1. cbv iota beta. unfold bind at 1.
        specialize (IH w1). destruct (backfill_rows rows w1) as [r w'].
        destruct IH as (Hi & He & outs & Hf & Hr & Hd). subst r.
        unfold ret. split; [congruence|]. split; [congruence|].
        exists (Printed ("Error updating Supabase for row " ++ str_nat (i_id row) ++ ": " ++ err)
                :: outs).
        split; [constructor; [exists err; right; reflexivity|exact Hf]|].
        split; [reflexivity|].
        intros e0 He0. apply (Hd e0). congruence.
      * unfold ret at 1. cbv iota beta. unfold bind at 1.
        specialize (IH w1). destruct (backfill_rows rows w1) as [r w'].
        destruct IH as (Hi & He & outs & Hf & Hr & Hd). subst r.
        unfold ret. split; [congruence|]. split; [congruence|].
        exists (Wrote (i_id row) vec :: outs).
        split; [|split; [reflexivity|intros e0 He0; discriminate]].
        constructor; [|exact Hf].
        split; [reflexivity|]. destruct vec as [v|]; [|congruence].
        exists v. split; [reflexivity|]. now apply Hlen.
    + destruct Hk as [He1 Hi1].
      unfold ret at 1. cbv iota beta. unfold bind at 1.
      specialize (IH w1). destruct (backfill_rows rows w1) as [r w'].
      destruct IH as (Hi & He & outs & Hf & Hr & Hd). subst r.
      unfold ret. split; [congruence|]. split; [congruence|].
      exists (Printed ("Error generating embedding for row " ++ str_nat (i_id row) ++ ": " ++ e)
              :: outs).
      split; [constructor; [exists e; left; reflexivity|exact Hf]|].
      split; [reflexivity|].
      intros e0 He0. apply (Hd e0). congruence.
Qed.

End BackfillFacts.

(** ** X12: the backfill loop of [generate_restaurant_embeddings] never
    raises and changes no row of the modelled table. Rows whose text is
    empty are skipped silently; every other row, in order, yields exactly
    one outcome: either a write of a 1536-component embedding for that
    row's id, or one printed line naming that row's id with the embedding
    or update error, after which the loop goes on with the next rows. The
    result is the list of writes and the list of printed lines; when the
    database is down nothing is written. *)
Theorem X12_backfill_never_aborts (rows : list item) (w : world) :
  let '(r, w') := backfill_rows rows w in
  w_items w' = w_items w /\
  exists outs,
    Forall2 row_outcome_ok (filter (fun row => Py.truthy (text_to_embed row)) rows) outs /\
    r = Ok (writes_of outs, printed_of outs) /\
    (forall e, w_db_error w = Some e -> writes_of outs = []).
Proof.
  pose proof (BackfillFacts.backfill_outs rows w) as H.
  destruct (backfill_rows rows w) as [r w'].
  destruct H as (Hi & _ & outs & Hf & Hr & Hd).
  split; [exact Hi|]. exists outs. auto.
Qed.

Module LikeFacts.

Lemma like_pct q s :
  like_match (String "%" q) s =
  like_match q s || match s with EmptyString => false | String _ s' => like_match (String "%" q) s' end.
Proof. destruct s; reflexivity. Qed.

Lemma like_pct_any t : like_match "%" t = true.
Proof.
  induction t as [|c t IH]; [reflexivity|].
  rewrite like_pct. simpl. exact IH.
Qed.

Lemma like_literal_prefix p : forall t,
  like_literal p = true -> like_match (p ++ "%") t = prefix p t.
Proof.
  induction p as [|c p IH]; intros t Hl.
  - destruct t; exact (like_pct_any _).
  - simpl in Hl. apply andb_true_iff in Hl as [Hc Hl].
    unfold like_literal_char in Hc.
    destruct (Ascii.eqb c "%") eqn:E1, (Ascii.eqb c "*") eqn:E2, (Ascii.eqb c "_") eqn:E3,
      (Ascii.eqb c "\") eqn:E4; try discriminate.
    cbn [append like_match]. rewrite E1, E2, E3, E4.
    change (false || false) with false. cbv iota. destruct t as [|d t]; [reflexivity|].
    simpl. destruct (ascii_dec c d) as [<-|Hne].
    + rewrite Ascii.eqb_refl. simpl. now apply IH.
    + apply Ascii.eqb_neq in Hne. now rewrite Hne.
Qed.

Lemma like_contains p s :
  like_literal p = true -> like_match (String "%" (p ++ "%")) s = Py.contains p s.
Proof.
  intros Hl. induction s as [|c s IH].
  - rewrite like_pct, like_literal_prefix by exact Hl. simpl.
    now destruct p.
  - rewrite like_pct, like_literal_prefix by exact Hl. cbn [Py.contains].
    now rewrite IH.
Qed.

Lemma literal_valid p : like_literal p = true -> like_valid (String "%" (p ++ "%")) = true.
Proof.
  intros Hl. simpl. induction p as [|c p IH]; [reflexivity|].
  simpl in Hl |- *. apply andb_true_iff in Hl as [Hc Hl].
  unfold like_literal_char in Hc.
  destruct (Ascii.eqb c "\"); [rewrite !orb_true_r in Hc; discriminate|].
  now apply IH.
Qed.

Lemma literal_char_lower c : like_literal_char c = true -> like_literal_char (Py.lower_char c) = true.
Proof. destruct c as [[] [] [] [] [] [] [] []]; intros H; try reflexivity; exact H. Qed.

Lemma literal_lower p : like_literal p = true -> like_literal (Py.lower p) = true.
Proof.
  induction p as [|c p IH]; simpl; [reflexivity|].
  intros H. apply andb_true_iff in H as [Hc Hp].
  now rewrite literal_char_lower, IH.
Qed.

Lemma lower_app s t : Py.lower (s ++ t) = Py.lower s ++ Py.lower t.
Proof. induction s as [|c s IH]; simpl; [reflexivity|]. now rewrite IH. Qed.

End LikeFacts.

(** ** X13: a movie recommendation (["recommend me a(n) <genre> movie"],
    when the message is not a list or remove command) touches no row, and
    for a genre without [LIKE] wildcards it lists exactly the movie rows,
    of all users, whose notes are set and contain the genre ignoring
    case; rows without notes are never recommended. *)
Theorem X13_movie_recommend_rows (body_text user_id : string) (w : world) (g : string)
  (Hl : Py.contains "list movies" (Py.lower body_text) = false)
  (Hr : Py.contains "remove movie" (Py.lower body_text) = false)
  (Hm : movie_re_search (Py.lower body_text) = Some g)
  (Hlit : like_literal (Py.strip g) = true)
  (Hup : w_db_error w = None) :
  let genre := Py.strip g in
  let rows := filter (fun it => String.eqb (i_category it) "movie" &&
                                match i_notes it with
                                | Some n => Py.contains (Py.lower genre) (Py.lower n)
                                | None => false
                                end) (w_items w) in
  let '(r, w') := handle_movie_request body_text user_id w in
  w_items w' = w_items w /\
  r = Ok (match rows with
          | [] => "No recommendations found for " ++ genre ++ " movies."
          | _ => join_nl (("Recommended " ++ genre ++ " movie(s):") :: numbered_names rows)
          end).
Proof.
  cbv zeta. unfold handle_movie_request. cbv zeta. rewrite Hl, Hr, Hm.
  unfold bind at 1.
  rewrite Eff.db_select_ok by
    (exact Hup || (apply andb_true_iff; split; [reflexivity|];
                   apply andb_true_iff; split; [exact (LikeFacts.literal_valid _ Hlit)|reflexivity])).
  assert (Hf : filter (matches [Eq CCategory "movie"; ILike CNotes ("%" ++ Py.strip g ++ "%")])
                      (w_items w) =
               filter (fun it => String.eqb (i_category it) "movie" &&
                                 match i_notes it with
                                 | Some n => Py.contains (Py.lower (Py.strip g)) (Py.lower n)
                                 | None => false
                                 end) (w_items w)).
  { apply filter_ext. intros it. unfold matches, forallb, cond_holds, col_value.
    cbv beta iota. rewrite andb_true_r.
    destruct (i_notes it) as [n|]; [|reflexivity].
    rewrite !LikeFacts.lower_app. change (Py.lower "%") with "%". cbn [append].
    rewrite LikeFacts.like_contains by (now apply LikeFacts.literal_lower).
    reflexivity. }
  rewrite Hf.
  match goal with |- context [filter ?f (w_items w)] => destruct (filter f (w_items w)) end;
    unfold ret; split; try reflexivity; destruct w; reflexivity.
Qed.

(* ------------------------------------------------------------------ *)
(** ** Instances of the properties above on concrete inputs *)

Lemma X2_witness :
  receive_sms (Some "+15550001") (Some "hello") (world_of [] []) =
    (Ok (mk_response generic_help 200), world_of [] []) /\
  r_status (mk_response generic_help 200) = 200%nat.
Proof.
  split; [vm_compute; reflexivity|].
  apply (X2_webhook_replies_200 (Some "+15550001") (Some "hello")
           (world_of [] []) (world_of [] [])).
  vm_compute. reflexivity.
Defined.

Lemma X3_witness :
  receive_sms None (Some "list grocery") (world_of [] []) =
    (Ok (mk_response "Error: Missing phone number or message body." 200), world_of [] []).
Proof.
  apply (X3_missing_fields_rejected None (Some "list grocery") (world_of [] [])).
  left. reflexivity.
Defined.

Lemma X4_witness :
  let body := ("Grocery, Produce" ++ nl ++ "Bananas")%string in
  let '(r, w') := receive_sms (Some "+15550001") (Some body) (world_of [] []) in
  (exists resp, r = Ok resp) /\
  (w_items w' = w_items (world_of [] []) \/
   exists it, w_items w' = (w_items (world_of [] []) ++ [it])%list).
Proof.
  intros body.
  apply (X4_data_entry_path_total "+15550001" body (world_of [] [])).
  - reflexivity.
  - vm_compute. reflexivity.
Defined.

Lemma X5_witness :
  let body := ("Grocery, Produce" ++ nl ++ "Bananas")%string in
  let w := mk_world [] 1 (Some "connection refused") true [] (RpcRows []) (LlmText "")
                    "2025-01-01T00:00:00" [] in
  let '(r, w') := receive_sms (Some "+15550001") (Some body) w in
  match w_db_error w with
  | Some err => r = Ok (mk_response ("Unexpected error: " ++ err) 200) /\
                w_items w' = w_items w
  | None => w_insert_data w = false ->
            r = Ok (mk_response "Database error: No data returned" 200) /\
            w_items w' = w_items w
  end.
Proof.
  intros body w.
  apply (X5_insert_failures_replied "+15550001" body w
           (mk_entry "grocery" (Some "produce") "bananas")).
  - reflexivity.
  - vm_compute. reflexivity.
  - vm_compute. reflexivity.
Defined.

Lemma X6_witness :
  let e := mk_entry "grocery" (Some "produce") "bananas" in
  e_category e <> EmptyString /\ Py.lower (e_category e) = e_category e /\
  e_name e <> EmptyString /\ Py.lower (e_name e) = e_name e /\
  (forall subcat, e_subcategory e = Some subcat ->
     subcat <> EmptyString /\ Py.lower subcat = subcat).
Proof.
  intros e.
  apply (X6_parsed_entry_normalised (" Grocery ,  Produce" ++ nl ++ "  BANANAS ")%string e).
  vm_compute. reflexivity.
Defined.

Lemma X7_witness :
  let w := world_of [mk_item 1 "+15550001" "tv" None "dark" None "t";
                     mk_item 2 "+15550002" "movie" None "dune" None "t"] [] in
  let '(r1, w1) := handle_tv_request "Remove TV" "+15550001" w in
  let '(r2, w2) := handle_tv_request "Remove TV" "+15550001" w1 in
  r1 = Ok "All TV items removed!" /\ r2 = r1 /\
  w_items w1 = filter (fun it => negb (String.eqb (i_category it) "tv")) (w_items w) /\
  w_items w2 = w_items w1.
Proof.
  intros w.
  exact (proj1 X7_bulk_remove_idempotent "Remove TV" "+15550001" w ""
           eq_refl eq_refl eq_refl eq_refl).
Defined.

Lemma X8_witness :
  let w := world_of [mk_item 1 "+15550001" "grocery" None "bananas" None "t";
                     mk_item 2 "+15550002" "Grocery" None "milk" None "t"] [] in
  let '(r, w') := handle_grocery_request "remove grocery " "+15550001" w in
  r = Ok "All grocery items removed for all users!" /\
  w_items w' = filter (fun it => negb (String.eqb (i_category it) "Grocery")) (w_items w) /\
  (forall it, In it (w_items w) -> Py.lower (i_category it) = i_category it ->
              In it (w_items w')).
Proof.
  intros w.
  exact (X8_grocery_bulk_remove_keeps_lowercase "remove grocery " "+15550001" w " "
           eq_refl eq_refl eq_refl eq_refl).
Defined.

Lemma X9_witness :
  let w := set_emb (world_of [] []) [EmbFail "rate limited"; EmbVec (repeat 0%Z 1536)] in
  let '(r, w') := generate_embedding "sushi" 3 w in
  exists k, (1 <= k <= 3)%nat /\
    w_log w' = (w_log w ++ retry_log "sushi" k)%list /\
    w_items w' = w_items w /\
    (forall e, r = Exn e -> k = 3%nat) /\
    r <> Ok None /\
    (forall v, r = Ok (Some v) -> length v = 1536%nat).
Proof.
  intros w.
  apply (X9_embedding_retry_bounds "sushi" 3 w). lia.
Defined.

Lemma X10_witness :
  let row := mk_item 4 "+15550001" "restaurant" None "nopa" (Some "") "t" in
  let w := mk_world [] 1 None true [EmbFail "rate limited"; EmbVec (repeat 0%Z 1536)]
                    (RpcRows [row]) (LlmText "  Try Nopa.  ") "2025-01-01T00:00:00" [] in
  let w1 := mk_world [] 1 None true [] (RpcRows [row]) (LlmText "  Try Nopa.  ")
                     "2025-01-01T00:00:00"
                     [EEmbed "recommend a cozy place"; ESleep 1; EEmbed "recommend a cozy place"] in
  let '(r, w') := restaurant_recommend "recommend a cozy place" w in
  w_items w' = w_items w /\
  match w_rpc w with
  | RpcFail e =>
      r = Ok ("Error performing vector search: " ++ e) /\
      w_log w' = (w_log w1 ++ [ERpc 3])%list
  | RpcRows [] =>
      r = Ok "No relevant restaurants found via vector search." /\
      w_log w' = (w_log w1 ++ [ERpc 3])%list
  | RpcRows rows =>
      r = Ok (match w_llm w with
              | LlmText t => Py.strip t
              | LlmFail e => "Error calling LLM for final recommendation: " ++ e
              end) /\
      w_log w' = (w_log w1 ++ [ERpc 3; ELlm (build_prompt "recommend a cozy place" rows) 120])%list
  end.
Proof.
  intros row w w1.
  apply (X10_recommend_paths "recommend a cozy place" w w1 (Some (repeat 0%Z 1536))).
  vm_compute. reflexivity.
Defined.

Lemma X13_witness :
  let w := world_of [mk_item 1 "+15550001" "movie" None "heat" (Some "An Action classic") "t";
                     mk_item 2 "+15550002" "movie" None "up" None "t"] [] in
  let genre := Py.strip "action" in
  let rows := filter (fun it => String.eqb (i_category it) "movie" &&
                                match i_notes it with
                                | Some n => Py.contains (Py.lower genre) (Py.lower n)
                                | None => false
                                end) (w_items w) in
  let '(r, w') := handle_movie_request "Recommend me an action movie" "+15550001" w in
  w_items w' = w_items w /\
  r = Ok (match rows with
          | [] => "No recommendations found for " ++ genre ++ " movies."
          | _ => join_nl (("Recommended " ++ genre ++ " movie(s):") :: numbered_names rows)
          end).
Proof.
  intros w.
  apply (X13_movie_recommend_rows "Recommend me an action movie" "+15550001" w "action").
  - vm_compute. reflexivity.
  - vm_compute. reflexivity.
  - vm_compute. reflexivity.
  - vm_compute. reflexivity.
  - reflexivity.
Defined.

Module DownFacts.

Lemma contains_after_first sep s :
  Py.contains sep s = true -> exists a, Py.after_first sep s = Some a.
Proof.
  induction s as [|c s IH]; cbn [Py.contains Py.after_first]; intros H.
  - destruct (prefix sep ""); [eauto|discriminate].
  - destruct (prefix sep (String c s)); [eauto|]. exact (IH H).
Qed.

Lemma select_down q w e :
  w_db_error w = Some e -> db_select q w = (Exn e, add_event w ESelect).
Proof.
  intros He. destruct w; simpl in He; subst.
  unfold db_select, db_guard, bind, emit, get_world, raise. reflexivity.
Qed.

Lemma delete_down q w e :
  w_db_error w = Some e -> db_delete q w = (Exn e, add_event w EDelete).
Proof.
  intros He. destruct w; simpl in He; subst.
  unfold db_delete, db_guard, bind, emit, get_world, raise. reflexivity.
Qed.

End DownFacts.

(** ** X14: when the database is down, every grocery list or remove
    command (a message that is not a data entry, mentions ["grocery"],
    and contains ["list"] or ["remove grocery"]) makes the webhook raise
    the database's error instead of replying; no row changes. *)
Theorem X14_grocery_db_error_escapes (from_number body_text : string) (w : world)
  (e : string)
  (Hf : Py.truthy from_number = true) (Hb : Py.truthy body_text = true)
  (Hd : is_data_entry_format body_text = false)
  (Hg : Py.contains "grocery" (Py.lower body_text) = true)
  (Hc : Py.contains "list" (Py.lower body_text) = true \/
        Py.contains "remove grocery" (Py.lower body_text) = true)
  (Hdown : w_db_error w = Some e) :
  let '(r, w') := receive_sms (Some from_number) (Some body_text) w in
  r = Exn e /\ w_items w' = w_items w.
Proof.
  unfold receive_sms. rewrite Hf, Hb, Hd. cbv iota beta. change (true && true) with true.
  cbv iota. unfold bind at 1, handle_request. cbv zeta. rewrite Hg.
  unfold handle_grocery_request. cbv zeta.
  destruct (Py.contains "list" (Py.lower body_text)) eqn:El.
  - unfold bind at 1. rewrite (DownFacts.select_down _ _ _ Hdown).
    split; [reflexivity|]. destruct w; reflexivity.
  - destruct Hc as [Hc|Hc]; [discriminate|]. rewrite Hc.
    destruct (DownFacts.contains_after_first _ _ Hc) as [a Ha]. rewrite Ha.
    destruct (negb (Py.truthy (Py.strip a))); unfold bind at 1;
      rewrite (DownFacts.delete_down _ _ _ Hdown); (split; [reflexivity|]);
      destruct w; reflexivity.
Qed.

Lemma X14_witness :
  let w := mk_world [mk_item 1 "+15550001" "Grocery" None "milk" None "t"] 2
                    (Some "ConnectionError: connection refused") true []
                    (RpcRows []) (LlmText "") "t" [] in
  let '(r, w') := receive_sms (Some "+15550002") (Some "Remove grocery milk") w in
  r = Exn "ConnectionError: connection refused" /\ w_items w' = w_items w.
Proof.
  intros w.
  apply (X14_grocery_db_error_escapes "+15550002" "Remove grocery milk" w
           "ConnectionError: connection refused").
  - reflexivity.
  - reflexivity.
  - vm_compute. reflexivity.
  - vm_compute. reflexivity.
  - right. vm_compute. reflexivity.
  - reflexivity.
Defined.
